(** * CrazyCast: the LLM forecasting baseline of the benchmark

    A shallow embedding of [benchmark/baselines/crazycast.py]: the prompt
    builder, the parser of the model's answers, the rejection-sampling loop
    of [CrazyCast.__call__] with its batch-size policy, token and cost
    accounting, and the [cache_name] property.

    Python integers are [Z], strings are [string], dictionaries are [gmap];
    Python floats are kept abstract (an arbitrary type with the operations
    the code uses), except where the code only compares a finite value with
    an integer, where a rational stands for the float's exact value. *)

From Stdlib Require Import ZArith QArith Qround Qabs Lia List String Ascii.
From Stdlib Require Import Permutation DecimalString DecimalZ.
From stdpp Require Import base option list gmap strings fin_maps.

Local Open Scope Z_scope.

(** ** Python primitives used by the code *)

Module Py.

(** [s.split(sep)] for a one-character separator: every occurrence of the
    separator cuts, empty fields are kept, the result is never empty. *)
Fixpoint split (sep : ascii) (s : string) : list string :=
  match s with
  | EmptyString => [EmptyString]
  | String c s' =>
      if decide (c = sep) then EmptyString :: split sep s'
      else match split sep s' with
           | [] => [String c EmptyString]
           | field :: fields => String c field :: fields
           end
  end.

(** [s.replace(c, "")] for a one-character pattern. *)
Fixpoint remove (c : ascii) (s : string) : string :=
  match s with
  | EmptyString => EmptyString
  | String c' s' => if decide (c' = c) then remove c s' else String c' (remove c s')
  end.

(** Truth value of an attribute that is [None] or an integer. *)
Definition truthy (o : option Z) : bool :=
  match o with
  | Some z => negb (z =? 0)
  | None => false
  end.

(** [l[:n]]: a negative bound counts from the end. *)
Definition slice_to {A} (n : Z) (l : list A) : list A :=
  if 0 <=? n then take (Z.to_nat n) l
  else take (length l - Z.to_nat (- n))%nat l.

(** [str(b)] and [str(n)] for a boolean and an integer. *)
Definition str_bool (b : bool) : string := if b then "True" else "False".
Definition str_int (n : Z) : string := NilZero.string_of_int (Z.to_int n).

(** [sep.join(l)]. *)
Fixpoint join (sep : string) (l : list string) : string :=
  match l with
  | [] => EmptyString
  | [s] => s
  | s :: rest => s +:+ sep +:+ join sep rest
  end.

(** [c in s] for a character. *)
Fixpoint occurs (c : ascii) (s : string) : bool :=
  match s with
  | EmptyString => false
  | String c' s' => bool_decide (c' = c) || occurs c s'
  end.

(** [s.startswith(p)]. *)
Definition startswith (p s : string) : bool := String.prefix p s.

End Py.

Definition newline : ascii := "010"%char.
Definition dquote : ascii := "034"%char.

(** ** Parsing one completion (the body of the [try] block) *)

Section Parser.
(** The values [float(...)] returns, and [float] itself on a string:
    [None] stands for the [ValueError] it raises. *)
Context {float : Type}.
Variable float_of_str : string → option float.
(** [extract_html_tags] of [baselines/utils.py]: for each requested tag,
    the list of the texts found between its opening and closing marks. *)
Variable extract_html_tags : string → list string → gmap string (list string).

(** [extract_html_tags(content, ["forecast"])["forecast"][0]]: a missing
    key and an empty list both raise. *)
Definition forecast_block (content : string) : option string :=
  found ← extract_html_tags content ["forecast"%string] !! "forecast"%string;
  head found.

(** [forecast.replace("(", "").replace(")", "").split("\n")] *)
Definition forecast_lines (block : string) : list string :=
  Py.split newline (Py.remove ")" (Py.remove "(" block)).

(** One item of the dictionary comprehension: the key is the first comma
    field without quotes, the value is [float] of the second comma field;
    [x.split(",")[1]] raises when the line has no comma. *)
Definition parse_line (x : string) : option (string * float) :=
  let fields := Py.split "," x in
  k ← head fields;
  s ← fields !! 1%nat;
  v ← float_of_str s;
  Some (Py.remove dquote (Py.remove "'" k), v).

(** The dictionary a comprehension builds from its items, in order: a
    later item replaces an earlier one with the same key. *)
Definition dict_of (items : list (string * float)) : gmap string float :=
  foldl (λ d kv, <[kv.1 := kv.2]> d) ∅ items.

Definition forecast_dict (lines : list string) : option (gmap string float) :=
  items ← mapM parse_line lines;
  Some (dict_of items).

(** [[forecast[t] for t in future_time]]: a missing key raises. *)
Definition values_at (d : gmap string float) (targets : list string) : option (list float) :=
  mapM (λ t, d !! t) targets.

(** The whole [try] block; [None] is the rejection of the sample (every
    exception is caught by the same handler). *)
Definition parse_choice (content : string) (targets : list string) : option (list float) :=
  block ← forecast_block content;
  d ← forecast_dict (forecast_lines block);
  values_at d targets.

End Parser.

(** ** Concrete collaborators used by the examples *)

Module Fixture.

Definition is_space (c : ascii) : bool :=
  bool_decide (c ∈ [" "%char; "009"%char; "010"%char; "011"%char; "012"%char; "013"%char]).

Fixpoint lstrip (s : string) : string :=
  match s with
  | String c s' => if is_space c then lstrip s' else s
  | EmptyString => EmptyString
  end.

Definition strip (s : string) : string :=
  String.rev (lstrip (String.rev (lstrip s))).

(** The non-overlapping texts between [opening] and the first [closing]
    that follows it, scanning from position [from]. *)
Fixpoint findall (fuel : nat) (opening closing text : string) (from : nat) : list string :=
  match fuel with
  | O => []
  | S fuel' =>
      match String.index from opening text with
      | None => []
      | Some i =>
          let start := (i + String.length opening)%nat in
          match String.index start closing text with
          | None => []
          | Some j =>
              String.substring start (j - start) text
                :: findall fuel' opening closing text (j + String.length closing)%nat
          end
      end
  end.

(** Modelled from the spec: [extract_html_tags] lives in
    [baselines/utils.py], which is not among the sources. The parser
    "extracts a delimited forecast block from free text": for each key the
    texts between [<key>] and the next [</key>], without the surrounding
    white space, and no entry for a key that never occurs. *)
Definition extract_html_tags (text : string) (keys : list string) : gmap string (list string) :=
  foldl (λ d key,
           match findall (S (String.length text)) ("<" +:+ key +:+ ">") ("</" +:+ key +:+ ">") text 0 with
           | [] => d
           | found => <[key := strip <$> found]> d
           end) ∅ keys.

(** The plain decimal literals of [float]: optional white space around an
    optional sign, digits and at most one point with a digit on one side
    of it. The value is the exact rational the literal denotes. Exponents,
    [inf], [nan] and digit separators are outside this fragment: the
    examples use none of them, and on them this function answers [None]
    where Python would not. *)
Fixpoint digits (s : string) (acc : Z) : option Z :=
  match s with
  | EmptyString => Some acc
  | String c s' => d ← Ascii.is_nat c; digits s' (10 * acc + Z.of_nat d)
  end.

Definition unsigned_literal (s : string) : option Q :=
  match Py.split "." s with
  | [ip] => if decide (ip = EmptyString) then None else n ← digits ip 0; Some (inject_Z n)
  | [ip; fp] =>
      if decide (ip = EmptyString ∧ fp = EmptyString) then None
      else n ← digits (ip +:+ fp) 0;
           Some (Qred (n # Z.to_pos (10 ^ Z.of_nat (String.length fp))))
  | _ => None
  end.

Definition float_of_str (s : string) : option Q :=
  match strip s with
  | String "-" r => Qopp <$> unsigned_literal r
  | String "+" r => unsigned_literal r
  | r => unsigned_literal r
  end.

End Fixture.

(** ** Number formatting in the prompt *)

(** The two format specifications [make_prompt] uses: [.{p}g] and [.{p}f]. *)
Inductive format_spec :=
| General (precision : nat)
| Fixed (precision : nat).

(** Python's rule for presentation type [g] (Format Specification
    Mini-Language): the value is rounded to [p] significant digits; with
    [exp] the decimal exponent of the rounded value, the result is written
    in fixed-point notation when [-4 <= exp < p] and with an exponent
    otherwise. Presentation type [f] never writes an exponent. *)
Module PyFormat.

Definition pow10 (e : Z) : Q := Qpower (10 # 1) e.



Definition round_half_even (x : Q) : Z :=
  let f := Qfloor x in
  match Qcompare (x - inject_Z f) (1 # 2) with
  | Lt => f
  | Gt => f + 1
  | Eq => if Z.even f then f else f + 1
  end.




End PyFormat.

(** ** Task instances and prompts *)

(** What [CrazyCast] reads from a task instance: the history as the formatted
    index and the last column of [past_time] (a finite value, kept as the
    rational it is), the formatted index of [future_time], the optional
    context texts and the optional cap on the batch size. *)
Record task_instance := {
  past_time : list (string * Q);
  future_time : list string;
  background : option string;
  constraints : option string;
  scenario : option string;
  max_crazycast_batch_size : option Z;
}.

Record message := { role : string; content : string }.

Definition truthy_str (o : option string) : bool :=
  match o with
  | Some s => negb (bool_decide (s = EmptyString))
  | None => false
  end.

(** [f"({x}, {y:.{max_digits}g})" if y < 10**max_digits else f"({x}, {y:.0f})"]:
    the format specification chosen for the value [y]. *)
Definition history_format (max_digits : nat) (y : Q) : format_spec :=
  if Qlt_le_dec y (inject_Z (10 ^ Z.of_nat max_digits)) then General max_digits
  else Fixed 0.


Section Prompt.
(** [format(y, spec)] on a float, and numpy's rendering of the array of
    target timestamps inside an f-string. *)
Variable format_float : format_spec → Q → string.
Variable str_array : list string → string.

Definition history_entry (max_digits : nat) (xy : string * Q) : string :=
  "(" +:+ xy.1 +:+ ", " +:+ format_float (history_format max_digits xy.2) xy.2 +:+ ")".

Definition context_line (label : string) (text : option string) : string :=
  if truthy_str text then label +:+ ": " +:+ default EmptyString text +:+ String newline EmptyString
  else EmptyString.

Definition make_prompt (use_context : bool) (task : task_instance) (max_digits : nat) : string :=
  let history := Py.join (String newline EmptyString) (history_entry max_digits <$> past_time task) in
  let context :=
    if use_context then
      context_line "Background" (background task)
        +:+ context_line "Constraints" (constraints task)
        +:+ context_line "Scenario" (scenario task)
    else EmptyString in
  "
I have a time series forecasting task for you.

Here is some context about the task. Make sure to factor in any background knowledge,
satisfy any constraints, and respect any scenarios.
<context>
" +:+ context +:+ "
</context>

Here is a historical time series in (timestamp, value) format:
<history>
" +:+ history +:+ "
</history>

Now please predict the value at the following timestamps: " +:+ str_array (future_time task) +:+ ".

Return the forecast in (timestamp, value) format in between <forecast> and </forecast> tags.
Do not include any other information (e.g., comments) in the forecast.

Example:
<history>
(t1, v1)
(t2, v2)
(t3, v3)
</history>
<forecast>
(t4, v4)
(t5, v5)
</forecast>

".

Definition conversation (use_context : bool) (task : task_instance) : list message :=
  [ {| role := "system"; content := "You are a useful forecasting assistant." |};
    {| role := "user"; content := make_prompt use_context task 6 |} ].

End Prompt.

(** ** The engine *)

(** The exceptions [__call__] can end with. *)
Inductive exn :=
| AssertionError (message : string)
| ZeroDivisionError
| RuntimeError (message : string)
| IndexError
| ClientError (detail : string).

(** The result of running a piece of the method. [OutOfFuel] marks a loop
    stopped for lack of fuel; no call ends that way ([run_terminates]). *)
Inductive outcome (A : Type) :=
| Returned (a : A)
| Raised (e : exn)
| OutOfFuel.
Arguments Returned {A} a.
Arguments Raised {A} e.
Arguments OutOfFuel {A}.

(** State and exceptions: a computation transforms the state and returns,
    or raises with the state as it was at the [raise]. *)
Definition M (S A : Type) : Type := S → S * outcome A.

Global Instance M_ret {S} : MRet (M S) := λ A a s, (s, Returned a).
Global Instance M_bind {S} : MBind (M S) := λ A B k m s,
  match m s with
  | (s', Returned a) => k a s'
  | (s', Raised e) => (s', Raised e)
  | (s', OutOfFuel) => (s', OutOfFuel)
  end.
Definition raise {S A} (e : exn) : M S A := λ s, (s, Raised e).
Definition get {S} : M S S := λ s, (s, Returned s).
Definition modify {S} (f : S → S) : M S unit := λ s, (f s, Returned tt).
Definition out_of_fuel {S A} : M S A := λ s, (s, OutOfFuel).
(** [assert cond, message] *)
Definition assert {S} (cond : bool) (message : string) : M S unit :=
  if cond then mret tt else raise (AssertionError message).

Record usage := { prompt_tokens : Z; completion_tokens : Z }.

(** A chat completion: the text of every choice and the usage report. *)
Record chat_completion := { choices : list string; usage_of : usage }.

(** One request of the loop as the backend saw it: the number of candidates
    asked for and what came back (a completion or an exception). *)
Record round := { requested : Z; reply : exn + chat_completion }.

(** The behaviour of the backend during one call of the engine: its answer
    to the [k]-th request, given the model name, [n] and the messages. *)
Definition backend : Type := nat → string → Z → list message → exn + chat_completion.

Section Engine.
Context {float : Type}.

Record token_prices := { input : float; output : float }.

(** The attributes [__init__] sets (the client is the [backend] above). *)
Record CrazyCast := {
  model : string;
  use_context : bool;
  fail_on_invalid : bool;
  n_retries : Z;
  batch_size : option Z;
  batch_size_on_retry : Z;
  token_cost : option token_prices;
  total_cost : float;
  temperature : float;
}.

Definition set_total_cost (c : float) (self : CrazyCast) : CrazyCast :=
  {| model := model self; use_context := use_context self;
     fail_on_invalid := fail_on_invalid self; n_retries := n_retries self;
     batch_size := batch_size self; batch_size_on_retry := batch_size_on_retry self;
     token_cost := token_cost self; total_cost := c; temperature := temperature self |}.

(** The entries of [extra_info] that do not measure time. *)
Record extra_info := {
  total_input_tokens : Z;
  total_output_tokens : Z;
  llm_outputs : list string;
  input_token_cost : option float;
  output_token_cost : option float;
  total_token_cost : option float;
}.

(** What a call can change: the engine object and the requests sent. *)
Record world := { self_of : CrazyCast; rounds : list round }.

(** The local variables of the rejection-sampling loop. *)
Record loop_state := {
  valid_forecasts : list (list float);
  tokens_input : Z;
  tokens_output : Z;
  outputs : list string;
  batch_size_var : Z;
  n_retries_var : Z;
}.

Variable float_of_str : string → option float.
Variable extract_html_tags : string → list string → gmap string (list string).
(** Arithmetic on Python numbers: [int / int], [*], [+] and [round(x, n)]. *)
Variable true_div : Z → Z → float.
Variable fmul fadd : float → float → float.
Variable round_ndigits : float → Z → float.
Variable format_float : format_spec → Q → string.
Variable str_array : list string → string.

(** [self.client(model=self.model, n=batch_size, messages=messages)] *)
Definition call_client (client : backend) (model : string) (n : Z) (messages : list message)
  : M world chat_completion :=
  w ← get;
  let answer := client (length (rounds w)) model n messages in
  modify (λ w, {| self_of := self_of w; rounds := rounds w ++ [{| requested := n; reply := answer |}] |});;
  match answer with
  | inl e => raise e
  | inr completion => mret completion
  end.

(** The [for choice in chat_completion.choices] loop: every text is kept
    in [llm_outputs], a text that parses adds a forecast. *)
Definition parse_choices (targets : list string) (texts : list string)
    (acc : list string * list (list float)) : list string * list (list float) :=
  foldl (λ acc text,
           (acc.1 ++ [text],
            match parse_choice float_of_str extract_html_tags text targets with
            | Some forecast => acc.2 ++ [forecast]
            | None => acc.2
            end)) acc texts.

(** The statements of the loop body after the request. *)
Definition after_request (self : CrazyCast) (task : task_instance) (n_samples : Z)
    (st : loop_state) (completion : chat_completion) : loop_state :=
  let '(llm_outputs, valid) :=
    parse_choices (future_time task) (choices completion) (outputs st, valid_forecasts st) in
  let n_retries := n_retries_var st - 1 in
  let batch_size :=
    match max_crazycast_batch_size task with
    | Some max_batch_size =>
        let remaining_samples := n_samples - Z.of_nat (length valid) in
        Z.min (Z.max remaining_samples (batch_size_on_retry self)) max_batch_size
    | None => batch_size_on_retry self
    end in
  {| valid_forecasts := Py.slice_to n_samples valid;
     tokens_input := tokens_input st + prompt_tokens (usage_of completion);
     tokens_output := tokens_output st + completion_tokens (usage_of completion);
     outputs := llm_outputs;
     batch_size_var := batch_size;
     n_retries_var := n_retries |}.

(** [while len(valid_forecasts) < n_samples and n_retries > 0] *)
Fixpoint while_loop (fuel : nat) (client : backend) (self : CrazyCast) (task : task_instance)
    (n_samples : Z) (messages : list message) (st : loop_state) : M world loop_state :=
  if (Z.of_nat (length (valid_forecasts st)) <? n_samples) && (0 <? n_retries_var st) then
    match fuel with
    | O => out_of_fuel
    | S fuel' =>
        completion ← call_client client (model self) (batch_size_var st) messages;
        while_loop fuel' client self task n_samples messages
          (after_request self task n_samples st completion)
    end
  else mret st.

(** [np.array(valid_forecasts)[:, :, None]]: the rows all have the length
    of the horizon, so a non-empty list gives a two-dimensional array and
    the indexing appends an axis of size one; [np.array([])] has the single
    dimension [(0,)] and indexing it with two slices raises. *)
Definition stack_samples {S} (valid : list (list float)) : M S (list (list (list float))) :=
  match valid with
  | [] => raise IndexError
  | _ => mret (List.map (List.map (λ v : float, [v])) valid)
  end.

(** The shape of a stacked array with rows of length [h]. *)
Definition shape (h : nat) (samples : list (list (list float))) : Prop :=
  Forall (λ row, length row = h ∧ Forall (λ cell, length cell = 1%nat) row) samples.

Definition default_batch_size_of (self : CrazyCast) (n_samples : Z) : Z :=
  if Py.truthy (batch_size self) then default 0 (batch_size self) else n_samples.

(** [a // b] on integers. *)
Definition floordiv {S} (a b : Z) : M S Z :=
  if b =? 0 then raise ZeroDivisionError else mret (a / b).

(** The two assertions at the top of [__call__]. *)
Definition check_configuration (self : CrazyCast) (n_samples : Z) : M world unit :=
  let default_batch_size := default_batch_size_of self n_samples in
  (if Py.truthy (batch_size self) then
     assert (n_samples <=? default 0 (batch_size self) * n_retries self)
       ("Not enough iterations to cover " +:+ Py.str_int n_samples +:+ " samples")
   else mret tt);;
  assert (batch_size_on_retry self <=? default_batch_size)
    ("Batch size on retry should be equal to or less than " +:+ Py.str_int default_batch_size).

(** The batch size of the first request and the number of requests allowed. *)
Definition initial_policy (self : CrazyCast) (task : task_instance) (n_samples : Z)
  : M world (Z * Z) :=
  let default_batch_size := default_batch_size_of self n_samples in
  match max_crazycast_batch_size task with
  | Some max_batch_size =>
      let batch_size := Z.min default_batch_size max_batch_size in
      extra ← floordiv default_batch_size batch_size;
      mret (batch_size, n_retries self + extra)
  | None => mret (default_batch_size, n_retries self)
  end.

Definition insufficient_message (n_samples got : Z) : string :=
  "Failed to get " +:+ Py.str_int n_samples +:+ " valid forecasts. Got "
    +:+ Py.str_int got +:+ " instead.".

(** The price of the tokens of one call. *)
Definition call_cost (prices : token_prices) (tokens_in tokens_out : Z) : float :=
  let input_cost := fmul (true_div tokens_in 1000) (input prices) in
  let output_cost := fmul (true_div tokens_out 1000) (output prices) in
  round_ndigits (fadd input_cost output_cost) 2.

(** The block that fills [extra_info] and estimates the cost of the call. *)
Definition account (self : CrazyCast) (st : loop_state) : M world extra_info :=
  let info := {| total_input_tokens := tokens_input st;
                 total_output_tokens := tokens_output st;
                 llm_outputs := outputs st;
                 input_token_cost := None; output_token_cost := None;
                 total_token_cost := None |} in
  match token_cost self with
  | Some prices =>
      let current_cost := call_cost prices (tokens_input st) (tokens_output st) in
      modify (λ w, {| self_of := set_total_cost (fadd (total_cost (self_of w)) current_cost) (self_of w);
                      rounds := rounds w |});;
      mret {| total_input_tokens := total_input_tokens info;
              total_output_tokens := total_output_tokens info;
              llm_outputs := llm_outputs info;
              input_token_cost := Some (input prices);
              output_token_cost := Some (output prices);
              total_token_cost := Some current_cost |}
  | None => mret info
  end.

(** [CrazyCast.__call__] *)
Definition acquire (client : backend) (task : task_instance) (n_samples : Z)
  : M world (list (list (list float)) * extra_info) :=
  w ← get;
  let self := self_of w in
  check_configuration self n_samples;;
  let messages := conversation format_float str_array (use_context self) task in
  '(batch_size, n_retries) ← initial_policy self task n_samples;
  st ← while_loop (Z.to_nat n_retries) client self task n_samples messages
         {| valid_forecasts := []; tokens_input := 0; tokens_output := 0; outputs := [];
            batch_size_var := batch_size; n_retries_var := n_retries |};
  let got := Z.of_nat (length (valid_forecasts st)) in
  (if fail_on_invalid self && (got <? n_samples) then
     raise (RuntimeError (insufficient_message n_samples got))
   else mret tt);;
  info ← account self st;
  samples ← stack_samples (valid_forecasts st);
  mret (samples, info).

(** Running a call on an engine object: the object after the call, the
    requests that were sent, and how the call ended. *)
Definition run (client : backend) (self : CrazyCast) (task : task_instance) (n_samples : Z)
  : CrazyCast * list round * outcome (list (list (list float)) * extra_info) :=
  let '(w, result) := acquire client task n_samples {| self_of := self; rounds := [] |} in
  (self_of w, rounds w, result).

(** [str(x)] of a float, used by the f-string of [cache_name]. *)
Variable str_float : float → string.

(** The [cache_name] property. *)
Definition cache_name (self : CrazyCast) : string :=
  let args_to_include :=
    [("model"%string, model self);
     ("use_context"%string, Py.str_bool (use_context self));
     ("fail_on_invalid"%string, Py.str_bool (fail_on_invalid self));
     ("n_retries"%string, Py.str_int (n_retries self))]
    ++ (if negb (Py.startswith "gpt" (model self))
        then [("temperature"%string, str_float (temperature self))] else []) in
  "CrazyCast" +:+ "_" +:+ Py.join "_" ((λ kv, kv.1 +:+ "=" +:+ kv.2) <$> args_to_include).

(** The key cut at its [=] signs, from the left: up to the one that
    follows [use_context], [fail_on_invalid] and [n_retries]. *)
Definition key_model (self : CrazyCast) : string :=
  "CrazyCast_model=" +:+ model self +:+ "_use_context".
Definition key_context (self : CrazyCast) : string :=
  key_model self +:+ String "=" (Py.str_bool (use_context self) +:+ "_fail_on_invalid").
Definition key_invalid (self : CrazyCast) : string :=
  key_context self +:+ String "=" (Py.str_bool (fail_on_invalid self) +:+ "_n_retries").

(** An engine that differs from [self] in [batch_size_on_retry] only. *)
Definition with_batch_size_on_retry (b : Z) (self : CrazyCast) : CrazyCast :=
  {| model := model self; use_context := use_context self;
     fail_on_invalid := fail_on_invalid self; n_retries := n_retries self;
     batch_size := batch_size self; batch_size_on_retry := b;
     token_cost := token_cost self; total_cost := total_cost self;
     temperature := temperature self |}.

(** An engine that differs from [self] in [temperature] only. *)
Definition with_temperature (t : float) (self : CrazyCast) : CrazyCast :=
  {| model := model self; use_context := use_context self;
     fail_on_invalid := fail_on_invalid self; n_retries := n_retries self;
     batch_size := batch_size self; batch_size_on_retry := batch_size_on_retry self;
     token_cost := token_cost self; total_cost := total_cost self;
     temperature := t |}.

End Engine.

(** The clients [get_client] chooses from: the OpenAI or Azure client, the
    client of the Llama model "hosted on Toolkit", and local inference with
    a model of [LLM_MAP]. *)
Inductive client_kind := OpenAIClient | Llama405BClient | HuggingFaceClient.

(** [get_client], given the keys of [LLM_MAP]; [None] is the
    [NotImplementedError] for a model that is not supported. *)
Definition get_client (llm_map_keys : list string) (model : string) : option client_kind :=
  if Py.startswith "gpt" model then Some OpenAIClient
  else if decide (model = "llama-3.1-405b-instruct"%string) then Some Llama405BClient
  else if decide (model ∈ llm_map_keys) then Some HuggingFaceClient
  else None.

(** The models served by a remote endpoint rather than run locally. *)
Definition hosted (llm_map_keys : list string) (model : string) : bool :=
  match get_client llm_map_keys model with
  | Some OpenAIClient | Some Llama405BClient => true
  | _ => false
  end.

(** The temperature enters the key only for models that are not hosted, as
    the specification words it: if changing the temperature changes the key,
    the model is not hosted. *)
Definition temperature_only_when_not_hosted {float : Type} (str_float : float → string)
    (llm_map_keys : list string) (self : @CrazyCast float) : Prop :=
  ∀ t, cache_name str_float (with_temperature t self) ≠ cache_name str_float self →
       hosted llm_map_keys (model self) = false.

(** ** Concrete engines, tasks and backends used by the examples *)

Module Scenario.

(** Exact rational arithmetic standing for the float operations. *)
Definition true_div (a b : Z) : Q := Qred (inject_Z a / inject_Z b).
Definition fmul (x y : Q) : Q := Qred (x * y).
Definition fadd (x y : Q) : Q := Qred (x + y).
Definition round_ndigits (x : Q) (n : Z) : Q :=
  Qred (inject_Z (PyFormat.round_half_even (x * PyFormat.pow10 n)) / PyFormat.pow10 n).

(** Renderings kept symbolic: the examples do not look inside the prompt. *)
Definition format_float (f : format_spec) (y : Q) : string := "<value>".
Definition str_array (l : list string) : string := Py.join " " l.

Definition engine (fail : bool) (retries : Z) (batch : option Z) (on_retry : Z)
    (prices : option (@token_prices Q)) : @CrazyCast Q :=
  {| model := "gpt-4o"; use_context := true; fail_on_invalid := fail;
     n_retries := retries; batch_size := batch; batch_size_on_retry := on_retry;
     token_cost := prices; total_cost := 0%Q; temperature := 1%Q |}.

Definition task (cap : option Z) : task_instance :=
  {| past_time := [("2024-01-01 00:00:00"%string, 1 # 2); ("2024-01-01 01:00:00"%string, 3 # 1)];
     future_time := ["2024-01-01 02:00:00"; "2024-01-01 03:00:00"]%string;
     background := Some "Hourly measurements."%string;
     constraints := None; scenario := None;
     max_crazycast_batch_size := cap |}.

Definition good_text : string :=
  "<forecast>(2024-01-01 03:00:00, 4.5)
(2024-01-01 02:00:00, 4)</forecast>".

Definition bad_text : string := "I cannot forecast this series.".

(** A backend whose candidates are all well formed. *)
Definition obedient : backend := λ k model n messages,
  inr {| choices := replicate (Z.to_nat n) good_text;
         usage_of := {| prompt_tokens := 100; completion_tokens := 30 * n |} |}.

(** A backend whose candidates are never well formed. *)
Definition stubborn : backend := λ k model n messages,
  inr {| choices := replicate (Z.to_nat n) bad_text;
         usage_of := {| prompt_tokens := 100; completion_tokens := 10 * n |} |}.

(** A backend that returns one good candidate per request, the rest bad. *)
Definition sparse : backend := λ k model n messages,
  inr {| choices := good_text :: replicate (Z.to_nat n - 1) bad_text;
         usage_of := {| prompt_tokens := 100; completion_tokens := 10 * n |} |}.

(** A backend whose first answer has no well-formed candidate and whose
    later answers have only well-formed ones. *)
Definition late : backend := λ k model n messages,
  inr {| choices := replicate (Z.to_nat n) (if decide (k = 0%nat) then bad_text else good_text);
         usage_of := {| prompt_tokens := 100;
                        completion_tokens := (if decide (k = 0%nat) then 10 else 30) * n |} |}.

(** Two units per thousand input tokens, ten per thousand output tokens. *)
Definition prices : @token_prices Q := {| input := 2%Q; output := 10%Q |}.

Definition run (client : backend) (self : @CrazyCast Q) (t : task_instance) (n_samples : Z) :=
  run Fixture.float_of_str Fixture.extract_html_tags true_div fmul fadd round_ndigits
    format_float str_array client self t n_samples.

End Scenario.


(** ** Reading the log of requests *)

Section Log.
Context {float : Type}.
Variable float_of_str : string → option float.
Variable extract_html_tags : string → list string → gmap string (list string).

Definition completion_of (r : round) : option chat_completion :=
  match reply r with inr c => Some c | inl _ => None end.

(** The tokens the backend reported over the rounds of a log. *)
Definition prompt_tokens_of (log : list round) : Z :=
  foldr Z.add 0 ((λ r, from_option (λ c, prompt_tokens (usage_of c)) 0 (completion_of r)) <$> log).
Definition completion_tokens_of (log : list round) : Z :=
  foldr Z.add 0 ((λ r, from_option (λ c, completion_tokens (usage_of c)) 0 (completion_of r)) <$> log).

(** The texts the backend generated, and the forecasts among them that
    parse, in the order they came. *)
Definition texts_of (log : list round) : list string :=
  log ≫= (λ r, from_option choices [] (completion_of r)).
Definition accepted (targets : list string) (log : list round) : list (list float) :=
  omap (λ text, parse_choice float_of_str extract_html_tags text targets) (texts_of log).

(** The size of the request that follows the rounds of [log], by the
    batch-size policy: [first] for the first request; afterwards the
    number of forecasts still needed or [batch_size_on_retry], whichever
    is larger, capped by the task's limit when there is one, and
    [batch_size_on_retry] when there is none. *)
Definition next_batch (self : @CrazyCast float) (task : task_instance) (n_samples first : Z)
    (log : list round) : Z :=
  match log with
  | [] => first
  | _ =>
      match max_crazycast_batch_size task with
      | Some max_batch_size =>
          let remaining := n_samples - Z.of_nat (length (accepted (future_time task) log)) in
          Z.min (Z.max remaining (batch_size_on_retry self)) max_batch_size
      | None => batch_size_on_retry self
      end
  end.

End Log.

(** ** The loop invariant and the result of a call, read from the log *)

Section Invariant.
Context {float : Type}.
Variable float_of_str : string → option float.
Variable extract_html_tags : string → list string → gmap string (list string).
Variable true_div : Z → Z → float.
Variable fmul fadd : float → float → float.
Variable round_ndigits : float → Z → float.
Variable self : @CrazyCast float.
Variable task : task_instance.
Variable n_samples : Z.

(** What relates the local variables of the loop to the log of requests
    when the loop condition is evaluated. [first] and [budget] are the
    batch size and the number of retries the loop started with. *)
Record loop_inv (first budget : Z) (w : @world float) (st : @loop_state float) : Prop := {
  inv_valid :
    valid_forecasts st
    = take (Z.to_nat n_samples) (accepted float_of_str extract_html_tags (future_time task) (rounds w));
  inv_input : tokens_input st = prompt_tokens_of (rounds w);
  inv_output : tokens_output st = completion_tokens_of (rounds w);
  inv_texts : outputs st = texts_of (rounds w);
  inv_retries : n_retries_var st = budget - Z.of_nat (length (rounds w));
  inv_batch :
    batch_size_var st
    = next_batch float_of_str extract_html_tags self task n_samples first (rounds w);
  inv_replies : Forall (λ r, is_Some (completion_of r)) (rounds w);
}.

(** What holds of the log at every moment, also when the call fails: each
    request has the size the policy gives after the rounds before it, and
    was sent while forecasts were missing and retries were left. *)
Definition log_inv (first budget : Z) (log : list round) : Prop :=
  ∀ i r, log !! i = Some r →
    requested r = next_batch float_of_str extract_html_tags self task n_samples first (take i log)
    ∧ Z.of_nat (length (accepted float_of_str extract_html_tags (future_time task) (take i log)))
      < n_samples
    ∧ Z.of_nat i < budget.

(** The forecasts a call holds when its loop ends. *)
Definition kept (log : list round) : list (list float) :=
  take (Z.to_nat n_samples) (accepted float_of_str extract_html_tags (future_time task) log).

(** The cost of the call and the engine object once it is charged. *)
Definition cost_of (prices : token_prices) (log : list round) : float :=
  call_cost true_div fmul fadd round_ndigits prices
    (prompt_tokens_of log) (completion_tokens_of log).

Definition charged (log : list round) : CrazyCast :=
  match token_cost self with
  | Some prices => set_total_cost (fadd (total_cost self) (cost_of prices log)) self
  | None => self
  end.

Definition report (log : list round) : extra_info :=
  {| total_input_tokens := prompt_tokens_of log;
     total_output_tokens := completion_tokens_of log;
     llm_outputs := texts_of log;
     input_token_cost := input <$> token_cost self;
     output_token_cost := output <$> token_cost self;
     total_token_cost := (λ prices, cost_of prices log) <$> token_cost self |}.

(** The size of the first request and the number of requests allowed. *)
Definition initial_batch : Z :=
  match max_crazycast_batch_size task with
  | Some max_batch_size => Z.min (default_batch_size_of self n_samples) max_batch_size
  | None => default_batch_size_of self n_samples
  end.

Definition retry_budget : Z :=
  match max_crazycast_batch_size task with
  | Some max_batch_size =>
      n_retries self
      + default_batch_size_of self n_samples
        / Z.min (default_batch_size_of self n_samples) max_batch_size
  | None => n_retries self
  end.

(** Whether the floor division of the capped policy divides by zero. *)
Definition zero_batch : bool :=
  match max_crazycast_batch_size task with
  | Some max_batch_size => Z.min (default_batch_size_of self n_samples) max_batch_size =? 0
  | None => false
  end.

(** The array [np.array(valid)[:, :, None]] of a non-empty list of rows. *)
Definition stacked (valid : list (list float)) : list (list (list float)) :=
  List.map (List.map (λ v : float, [v])) valid.

(** The configuration errors as the specification words them: the retry
    budget cannot reach the target when [batch_size] is set (is not
    [None]), or [batch_size_on_retry] exceeds the effective default batch
    size, which is [batch_size] if set and [n_samples] otherwise. *)
Definition misconfigured_as_specified : Prop :=
  (∃ b, batch_size self = Some b ∧ b * n_retries self < n_samples)
  ∨ default n_samples (batch_size self) < batch_size_on_retry self.

(** The same with "set" read as the code tests it: neither [None] nor 0. *)
Definition misconfigured : Prop :=
  (∃ b, batch_size self = Some b ∧ b ≠ 0 ∧ b * n_retries self < n_samples)
  ∨ default_batch_size_of self n_samples < batch_size_on_retry self.

(** Whether the two assertions of [__call__] hold. *)
Definition configuration_ok : bool :=
  (if Py.truthy (batch_size self) then n_samples <=? default 0 (batch_size self) * n_retries self
   else true)
  && (batch_size_on_retry self <=? default_batch_size_of self n_samples).

End Invariant.

(** ** The parser's rejections as the specification words them *)

Section ParserSpec.
Context {float : Type}.
Variable float_of_str : string → option float.
Variable extract_html_tags : string → list string → gmap string (list string).

(** The timestamp a line contributes to the mapping. *)
Definition line_key (x : string) : string :=
  Py.remove dquote (Py.remove "'" (default EmptyString (head (Py.split "," x)))).

(** The four causes of rejection: no block; a line that does not split
    into exactly a timestamp and a value; a value that is not a float; a
    requested timestamp that no line provides. *)
Definition rejection_causes (content : string) (targets : list string) : Prop :=
  forecast_block extract_html_tags content = None
  ∨ ∃ block, forecast_block extract_html_tags content = Some block
      ∧ ((∃ x, x ∈ forecast_lines block ∧ length (Py.split "," x) ≠ 2%nat)
         ∨ (∃ x s, x ∈ forecast_lines block ∧ Py.split "," x !! 1%nat = Some s
                    ∧ float_of_str s = None)
         ∨ (∃ t, t ∈ targets ∧ t ∉ line_key <$> forecast_lines block)).

(** The same with the second cause as the code has it: a line without a
    comma, whatever follows a second comma being ignored. *)
Definition rejection_causes_of_code (content : string) (targets : list string) : Prop :=
  forecast_block extract_html_tags content = None
  ∨ ∃ block, forecast_block extract_html_tags content = Some block
      ∧ ((∃ x, x ∈ forecast_lines block ∧ (length (Py.split "," x) < 2)%nat)
         ∨ (∃ x s, x ∈ forecast_lines block ∧ Py.split "," x !! 1%nat = Some s
                    ∧ float_of_str s = None)
         ∨ (∃ t, t ∈ targets ∧ t ∉ line_key <$> forecast_lines block)).

End ParserSpec.

(** ** The rest of the file: the other clients, and what reads the samples *)

(** The [history] text of [make_prompt]: the entries, one per line. *)
Definition history_block (format_float : format_spec → Q → string) (max_digits : nat)
    (task : task_instance) : string :=
  Py.join (String newline EmptyString) (history_entry format_float max_digits <$> past_time task).

(** A string in which none of the characters of [chars] occurs. *)
Definition free_of (chars : list ascii) (s : string) : Prop :=
  ∀ c, c ∈ chars → Py.occurs c s = false.

(** The characters the parser removes or cuts at: a timestamp that holds
    one of them is the key of no line. *)
Definition cut_chars : list ascii := ["("; ")"; newline; ","; "'"; dquote]%char.

(** The prompt [huggingface_model_client] builds from the messages: the
    contents of the system and user messages, each followed by a line
    break; messages with another role are skipped. *)
Definition hf_prompt (messages : list message) : string :=
  foldl (λ prompt m,
           if decide (role m = "system"%string)
           then prompt +:+ content m +:+ String newline EmptyString
           else if decide (role m = "user"%string)
                then prompt +:+ content m +:+ String newline EmptyString
                else prompt) EmptyString messages.

(** [huggingface_model_client]. [hf_generate] (of [hf_utils/cc_hf_api.py])
    is given the prompt and the batch size, the model, tokenizer, temperature
    and limits being fixed, and returns the generated texts or raises. The
    usage the client reports is zero. *)
Definition huggingface_model_client (hf_generate : string → Z → exn + list string)
    (messages : list message) (n : Z) : exn + chat_completion :=
  match hf_generate (hf_prompt messages) n with
  | inl e => inl e
  | inr responses =>
      inr {| choices := responses;
             usage_of := {| prompt_tokens := 0; completion_tokens := 0 |} |}
  end.

(** The client as the backend of a call; the [k]-th generation may answer
    differently from the others. *)
Definition huggingface_backend (hf_generate : nat → string → Z → exn + list string) : backend :=
  λ k model n messages, huggingface_model_client (hf_generate k) messages n.

(** The temperature [get_client] binds into the client it returns: the
    OpenAI clients are returned as they are, the two others through
    [partial(..., temperature=self.temperature)]. *)
Definition client_temperature {float : Type} (kind : client_kind) (self : @CrazyCast float)
  : option float :=
  match kind with
  | OpenAIClient => None
  | Llama405BClient | HuggingFaceClient => Some (temperature self)
  end.

(** Python values as [dict_to_obj] tells them apart: dictionaries (with
    string keys, as in decoded JSON), lists, the [SimpleNamespace] objects it
    builds, and everything else, of which integers and strings are read by
    [__call__]. *)
Local Unset Elimination Schemes.
Inductive pyval :=
| PInt (n : Z)
| PStr (s : string)
| POther (description : string)
| PList (items : list pyval)
| PDict (entries : list (string * pyval))
| PNamespace (attributes : list (string * pyval)).
Local Set Elimination Schemes.

(** [dict_to_obj] *)
Fixpoint dict_to_obj (data : pyval) : pyval :=
  match data with
  | PDict entries => PNamespace (List.map (λ kv, (fst kv, dict_to_obj (snd kv))) entries)
  | PList items => PList (List.map dict_to_obj items)
  | _ => data
  end.

(** The value of a key among the entries of a dictionary or the attributes
    of a namespace. *)
Fixpoint assoc (key : string) (entries : list (string * pyval)) : option pyval :=
  match entries with
  | [] => None
  | (k, v) :: rest => if decide (k = key) then Some v else assoc key rest
  end.

(** [data[key]], [data[i]] and [getattr(data, name)]; [None] stands for the
    exception raised on a value of another kind, a missing key or attribute,
    or an index out of range. *)
Definition getitem_key (data : pyval) (key : string) : option pyval :=
  match data with PDict entries => assoc key entries | _ => None end.
Definition getitem_index (data : pyval) (i : nat) : option pyval :=
  match data with PList items => items !! i | _ => None end.
Definition getattr (data : pyval) (name : string) : option pyval :=
  match data with PNamespace attributes => assoc name attributes | _ => None end.

(** A path into a value: keys and positions. *)
Inductive step := Key (key : string) | Index (i : nat).

(** Following a path with subscripts on the decoded JSON, and with
    attributes and subscripts on the converted object. *)
Fixpoint subscript (path : list step) (data : pyval) : option pyval :=
  match path with
  | [] => Some data
  | Key key :: rest => getitem_key data key ≫= subscript rest
  | Index i :: rest => getitem_index data i ≫= subscript rest
  end.
Fixpoint attribute (path : list step) (data : pyval) : option pyval :=
  match path with
  | [] => Some data
  | Key key :: rest => getattr data key ≫= attribute rest
  | Index i :: rest => getitem_index data i ≫= attribute rest
  end.

(** Decoded JSON: no namespace object anywhere. *)
Fixpoint is_json (data : pyval) : bool :=
  match data with
  | PDict entries => forallb (λ kv, is_json (snd kv)) entries
  | PList items => forallb is_json items
  | PNamespace _ => false
  | _ => true
  end.

(** What [__call__] reads from a completion object: [usage.prompt_tokens],
    [usage.completion_tokens] and [choice.message.content] for every choice.
    [None] when the object does not have the shape a [chat_completion]
    stands for: an attribute is missing, a count is not an integer or a
    content is not a string. *)
Definition read_int (data : pyval) : option Z :=
  match data with PInt n => Some n | _ => None end.
Definition read_str (data : pyval) : option string :=
  match data with PStr s => Some s | _ => None end.
Definition read_list (data : pyval) : option (list pyval) :=
  match data with PList items => Some items | _ => None end.
Definition read_completion (response : pyval) : option chat_completion :=
  prompt ← attribute [Key "usage"; Key "prompt_tokens"]%string response ≫= read_int;
  completion ← attribute [Key "usage"; Key "completion_tokens"]%string response ≫= read_int;
  choices ← getattr response "choices" ≫= read_list;
  texts ← mapM (λ choice, attribute [Key "message"; Key "content"]%string choice ≫= read_str) choices;
  Some {| choices := texts;
          usage_of := {| prompt_tokens := prompt; completion_tokens := completion |} |}.

(** [samples[:, :, 0]], the first statement of
    [OraclePredUnivariateConstraintsTask.evaluate] on an array of three
    dimensions; it raises when the last axis is empty. *)
Definition squeeze_last {A : Type} (samples : list (list (list A))) : option (list (list A)) :=
  mapM (mapM head) samples.

(** ** More engines, backends and responses used by the examples *)

Module Cases.

(** A backend whose first answer has no well-formed candidate and whose
    later requests fail. *)
Definition failing : backend := λ k model n messages,
  if decide (k = 0%nat) then Scenario.stubborn k model n messages
  else inl (ClientError "timeout").

(** A generation of a local model that always writes the same forecast. *)
Definition generate : nat → string → Z → exn + list string := λ k prompt n,
  inr (replicate (Z.to_nat n) Scenario.good_text).

(** An engine for a model run locally, with prices set. *)
Definition local_engine : @CrazyCast Q :=
  {| model := "llama-3-8B-instruct"; use_context := true; fail_on_invalid := true;
     n_retries := 3; batch_size := None; batch_size_on_retry := 2;
     token_cost := Some Scenario.prices; total_cost := 1 # 2; temperature := 1%Q |}.

(** The same engine with its temperature as an integer, for the key. *)
Definition keyed_engine : @CrazyCast Z :=
  {| model := "llama-3-8B-instruct"; use_context := true; fail_on_invalid := true;
     n_retries := 3; batch_size := None; batch_size_on_retry := 2;
     token_cost := None; total_cost := 0; temperature := 1 |}.

(** A decoded chat-completions response with one choice. *)
Definition response : pyval :=
  PDict [("id"%string, PStr "cmpl-1");
         ("choices"%string,
          PList [PDict [("index"%string, PInt 0);
                        ("message"%string,
                         PDict [("role"%string, PStr "assistant");
                                ("content"%string, PStr Scenario.good_text)]);
                        ("finish_reason"%string, PStr "stop")]]);
         ("usage"%string,
          PDict [("prompt_tokens"%string, PInt 100);
                 ("completion_tokens"%string, PInt 30);
                 ("total_tokens"%string, PInt 130)])].

(** The rendering of a value that is a whole number: its digits. *)
Definition whole_format (f : format_spec) (y : Q) : string :=
  Py.str_int (Qfloor y).

(** A block with the same timestamp on two lines. *)
Definition repeated_text : string :=
  "<forecast>(2024-01-01 02:00:00, 4)
(2024-01-01 02:00:00, 5)</forecast>".

(** A block with an empty line between its two lines. *)
Definition spaced_text : string :=
  "<forecast>(2024-01-01 02:00:00, 4)

(2024-01-01 03:00:00, 5)</forecast>".

(** A completion that writes its forecast as the prompt writes the history
    of [Scenario.task] with values 1 and 3. *)
Definition whole_task : task_instance :=
  {| past_time := [("2024-01-01 00:00:00"%string, 1 # 1); ("2024-01-01 01:00:00"%string, 3 # 1)];
     future_time := ["2024-01-01 02:00:00"]%string;
     background := None; constraints := None; scenario := None;
     max_crazycast_batch_size := None |}.
Definition echo_text : string :=
  "<forecast>(2024-01-01 00:00:00, 1)
(2024-01-01 01:00:00, 3)</forecast>".

End Cases.

(** * Properties *)

(** ** The parser *)

Section ParserFacts.
Context {float : Type}.
Variable float_of_str : string → option float.
Variable extract_html_tags : string → list string → gmap string (list string).

Local Abbreviation item_of := (parse_line float_of_str).
Local Abbreviation block_of := (forecast_block extract_html_tags).
Local Abbreviation parse := (parse_choice float_of_str extract_html_tags).

Lemma split_nonempty sep s : Py.split sep s ≠ [].
Proof. destruct s as [|c s]; simpl; [done|]. case_decide; [done|]. by destruct (Py.split sep s). Qed.

(** A string splits into fewer than two fields exactly when the separator
    does not occur in it. *)
Lemma split_short_iff sep s : (length (Py.split sep s) < 2)%nat ↔ Py.occurs sep s = false.
Proof.
  induction s as [|c s IH]; simpl; [split; [done|lia]|].
  pose proof (split_nonempty sep s) as Hne. case_decide as Hc.
  - rewrite bool_decide_eq_true_2 by done. simpl.
    destruct (Py.split sep s); [done|]. simpl. split; [lia|done].
  - rewrite bool_decide_eq_false_2 by done. simpl. rewrite <- IH.
    by destruct (Py.split sep s).
Qed.

Lemma dict_of_snoc (items : list (string * float)) kv :
  dict_of (items ++ [kv]) = <[kv.1 := kv.2]> (dict_of items).
Proof. unfold dict_of. by rewrite foldl_app. Qed.

(** The comprehension keeps the last item of each key: it is the map of
    the reversed list, in which the first occurrence wins. *)
Lemma dict_of_list_to_map (items : list (string * float)) :
  dict_of items = list_to_map (reverse items).
Proof.
  induction items as [|kv items IH] using rev_ind; [done|].
  rewrite dict_of_snoc, reverse_snoc, IH. by destruct kv.
Qed.


Lemma dict_of_lookup_None (items : list (string * float)) k :
  dict_of items !! k = None ↔ k ∉ items.*1.
Proof.
  rewrite dict_of_list_to_map, <- not_elem_of_list_to_map, fmap_reverse.
  by rewrite elem_of_reverse.
Qed.

Lemma dict_of_is_Some (items : list (string * float)) k :
  is_Some (dict_of items !! k) ↔ k ∈ items.*1.
Proof.
  rewrite <- not_eq_None_Some, dict_of_lookup_None.
  destruct (decide (k ∈ items.*1)); naive_solver.
Qed.



Lemma parse_line_key x kv : item_of x = Some kv → kv.1 = line_key x.
Proof.
  unfold parse_line, line_key.
  destruct (head (Py.split "," x)) as [k|]; simpl; [|done].
  destruct (Py.split "," x !! 1%nat) as [s|]; simpl; [|done].
  destruct (float_of_str s); simpl; [|done]. by intros [= <-].
Qed.

Lemma parse_line_None x :
  item_of x = None ↔
    (length (Py.split "," x) < 2)%nat
    ∨ ∃ s, Py.split "," x !! 1%nat = Some s ∧ float_of_str s = None.
Proof.
  unfold parse_line.
  pose proof (split_nonempty "," x) as Hne.
  destruct (Py.split "," x) as [|k [|s rest]]; simpl; [done| |].
  - split; [left; lia|done].
  - destruct (float_of_str s) eqn:E; simpl.
    + split; [done|]. intros [?|(s' & [= <-] & ?)]; [lia|congruence].
    + split; [|done]. intros _. right. by exists s.
Qed.

Lemma mapM_parse_keys (lines : list string) items :
  mapM item_of lines = Some items → items.*1 = line_key <$> lines.
Proof.
  intros H%mapM_Some_1. induction H as [|x kv l k Hx _ IH]; [done|].
  simpl. f_equal; [by apply parse_line_key|done].
Qed.

Lemma dict_of_filter_lookup (targets : list string) (items : list (string * float)) k :
  k ∈ targets →
  dict_of (filter (λ kv, kv.1 ∈ targets) items) !! k = dict_of items !! k.
Proof.
  intros Hk. induction items as [|[k' v] items IH] using rev_ind; [done|].
  rewrite filter_app, dict_of_snoc. simpl.
  destruct (decide (k' = k)) as [->|Hne].
  - rewrite filter_cons_True by done. simpl.
    by rewrite dict_of_snoc, !lookup_insert_eq.
  - rewrite lookup_insert_ne by done. rewrite <- IH.
    destruct (decide (k' ∈ targets)).
    + rewrite filter_cons_True by done. simpl.
      by rewrite dict_of_snoc, lookup_insert_ne.
    + rewrite filter_cons_False by done. simpl. by rewrite app_nil_r.
Qed.

Lemma parse_unfold content targets block items :
  block_of content = Some block →
  mapM item_of (forecast_lines block) = Some items →
  parse content targets = values_at (dict_of items) targets.
Proof.
  intros Hb Hi. unfold parse_choice, forecast_dict. rewrite Hb. simpl. by rewrite Hi.
Qed.


(** C5 (amended). A completion is rejected exactly when it has no
    forecast block, or a line of the block has no comma, or the second
    comma field of a line is not a float, or a requested timestamp is the
    key of no line; whatever follows a second comma is ignored. A block
    with pairs for more timestamps than requested parses, to the values it
    would give without the extra pairs. *)
Theorem parse_rejects_iff content targets :
  (parse content targets = None
   ↔ rejection_causes_of_code float_of_str extract_html_tags content targets)
  ∧ ∀ block items,
      block_of content = Some block →
      mapM item_of (forecast_lines block) = Some items →
      (∀ t, t ∈ targets → t ∈ items.*1) →
      ∃ vals,
        parse content targets = Some vals
        ∧ values_at (dict_of (filter (λ kv, kv.1 ∈ targets) items)) targets = Some vals.
Proof.
  split.
  - unfold rejection_causes_of_code. split.
    + intros Hnone. destruct (block_of content) as [block|] eqn:Hb; [|by left].
      right. exists block. split; [done|].
      destruct (mapM item_of (forecast_lines block)) as [items|] eqn:Hi.
      * rewrite (parse_unfold _ _ _ _ Hb Hi) in Hnone.
        apply mapM_None_1, Exists_exists in Hnone as (t & Ht & Hlook).
        right; right. exists t. split; [done|].
        rewrite <- (mapM_parse_keys _ _ Hi). by apply dict_of_lookup_None.
      * apply mapM_None_1, Exists_exists in Hi as (x & Hx & Hline).
        apply parse_line_None in Hline as [Hshort|(s & Hs & Hf)].
        -- left. by exists x.
        -- right; left. by exists x, s.
    + intros [Hb|(block & Hb & Hcause)].
      { unfold parse_choice. by rewrite Hb. }
      destruct (mapM item_of (forecast_lines block)) as [items|] eqn:Hi.
      * rewrite (parse_unfold _ _ _ _ Hb Hi).
        destruct Hcause as [(x & Hx & Hshort)|[(x & s & Hx & Hs & Hf)|(t & Ht & Hkey)]].
        -- assert (item_of x = None) as Hline by (apply parse_line_None; by left).
           apply mapM_Some_1 in Hi.
           apply list_elem_of_lookup_1 in Hx as [i Hx].
           destruct (Forall2_lookup_l _ _ _ _ _ Hi Hx) as (? & _ & ?). congruence.
        -- assert (item_of x = None) as Hline by (apply parse_line_None; right; by exists s).
           apply mapM_Some_1 in Hi.
           apply list_elem_of_lookup_1 in Hx as [i Hx].
           destruct (Forall2_lookup_l _ _ _ _ _ Hi Hx) as (? & _ & ?). congruence.
        -- apply mapM_None_2, Exists_exists. exists t. split; [done|].
           apply dict_of_lookup_None. by rewrite (mapM_parse_keys _ _ Hi).
      * unfold parse_choice, forecast_dict. rewrite Hb. simpl. by rewrite Hi.
  - intros block items Hb Hi Hcover.
    destruct (mapM_is_Some_2 (λ t, dict_of items !! t) targets) as [vals Hvals].
    { apply Forall_forall. intros t Ht. simpl. apply dict_of_is_Some. by apply Hcover. }
    exists vals. split; [by rewrite (parse_unfold _ _ _ _ Hb Hi)|].
    rewrite <- Hvals. apply Forall_mapM_ext, Forall_forall. intros t Ht.
    by apply dict_of_filter_lookup.
Qed.

End ParserFacts.


(** A line with a third comma field is accepted although it does not split
    into exactly a timestamp and a value: the rejection causes as the
    specification words them do not characterise the rejections. *)
Lemma parse_rejects_as_specified_fails :
  ¬ (parse_choice Fixture.float_of_str Fixture.extract_html_tags
       "<forecast>(2024-01-01 02:00:00, 4, 7)</forecast>" ["2024-01-01 02:00:00"%string] = None
     ↔ rejection_causes Fixture.float_of_str Fixture.extract_html_tags
         "<forecast>(2024-01-01 02:00:00, 4, 7)</forecast>" ["2024-01-01 02:00:00"%string]).
Proof.
  intros [_ Hback].
  assert (parse_choice Fixture.float_of_str Fixture.extract_html_tags
            "<forecast>(2024-01-01 02:00:00, 4, 7)</forecast>" ["2024-01-01 02:00:00"%string]
          = Some [4 # 1]) as Hparse by (vm_compute; reflexivity).
  rewrite Hparse in Hback. enough (Some [4 # 1] = None) by discriminate.
  apply Hback. right. exists "(2024-01-01 02:00:00, 4, 7)"%string.
  split; [vm_compute; reflexivity|].
  left. exists "2024-01-01 02:00:00, 4, 7"%string. split.
  - vm_compute. apply list_elem_of_here.
  - vm_compute. discriminate.
Qed.

(** A completion with a pair for a timestamp that was not requested. *)
Lemma parse_rejects_iff_witness :
  ∃ vals,
    parse_choice Fixture.float_of_str Fixture.extract_html_tags Scenario.good_text
      ["2024-01-01 02:00:00"%string] = Some vals
    ∧ values_at
        (dict_of (filter (λ kv, kv.1 ∈ ["2024-01-01 02:00:00"%string])
                    [("2024-01-01 03:00:00"%string, 9 # 2); ("2024-01-01 02:00:00"%string, 4 # 1)]))
        ["2024-01-01 02:00:00"%string] = Some vals.
Proof.
  apply (proj2 (parse_rejects_iff Fixture.float_of_str Fixture.extract_html_tags
                  Scenario.good_text ["2024-01-01 02:00:00"%string])
           "(2024-01-01 03:00:00, 4.5)
(2024-01-01 02:00:00, 4)"%string).
  - vm_compute. reflexivity.
  - vm_compute. reflexivity.
  - intros t. simpl. rewrite !elem_of_cons, !elem_of_nil. tauto.
Defined.

(** ** The rejection-sampling loop *)

Section EngineFacts.
Context {float : Type}.
Variable float_of_str : string → option float.
Variable extract_html_tags : string → list string → gmap string (list string).
Variable true_div : Z → Z → float.
Variable fmul fadd : float → float → float.
Variable round_ndigits : float → Z → float.
Variable format_float : format_spec → Q → string.
Variable str_array : list string → string.

Variable client : backend.
Variable self : @CrazyCast float.
Variable task : task_instance.
Variable n_samples : Z.

Local Abbreviation parse := (parse_choice float_of_str extract_html_tags).
Local Abbreviation targets := (future_time task).
Local Abbreviation accepted_in := (accepted float_of_str extract_html_tags (future_time task)).
Local Abbreviation policy := (next_batch float_of_str extract_html_tags self task n_samples).
Local Abbreviation loop_inv := (loop_inv float_of_str extract_html_tags self task n_samples).
Local Abbreviation log_inv := (log_inv float_of_str extract_html_tags self task n_samples).

Lemma bind_unfold {S A B} (m : M S A) (k : A → M S B) (s : S) :
  (m ≫= k) s =
    match m s with
    | (s', Returned a) => k a s'
    | (s', Raised e) => (s', Raised e)
    | (s', OutOfFuel) => (s', OutOfFuel)
    end.
Proof. reflexivity. Qed.

Lemma parse_choices_spec texts outs (valid : list (list float)) :
  parse_choices float_of_str extract_html_tags targets texts (outs, valid)
  = (outs ++ texts, valid ++ omap (λ text, parse text targets) texts).
Proof.
  unfold parse_choices. revert outs valid.
  induction texts as [|text texts IH]; intros outs valid; simpl.
  - by rewrite !app_nil_r.
  - rewrite IH. simpl. rewrite <- (assoc_L (++) outs). f_equal.
    destruct (parse text targets); simpl; [|done]. by rewrite <- (assoc_L (++) valid).
Qed.

Lemma texts_of_snoc log r :
  texts_of (log ++ [r]) = texts_of log ++ from_option choices [] (completion_of r).
Proof. unfold texts_of. rewrite bind_app. simpl. by rewrite app_nil_r. Qed.

Lemma accepted_snoc log r :
  accepted_in (log ++ [r])
  = accepted_in log ++ omap (λ text, parse text targets) (from_option choices [] (completion_of r)).
Proof. unfold accepted. by rewrite texts_of_snoc, omap_app. Qed.

Lemma foldr_add_from (a : Z) (l : list Z) : foldr Z.add a l = foldr Z.add 0 l + a.
Proof. induction l as [|z l IH]; simpl; lia. Qed.

Lemma prompt_tokens_snoc log r :
  prompt_tokens_of (log ++ [r])
  = prompt_tokens_of log + from_option (λ c, prompt_tokens (usage_of c)) 0 (completion_of r).
Proof.
  unfold prompt_tokens_of. rewrite fmap_app, foldr_app, foldr_add_from. simpl. lia.
Qed.

Lemma completion_tokens_snoc log r :
  completion_tokens_of (log ++ [r])
  = completion_tokens_of log + from_option (λ c, completion_tokens (usage_of c)) 0 (completion_of r).
Proof.
  unfold completion_tokens_of. rewrite fmap_app, foldr_app, foldr_add_from. simpl. lia.
Qed.

(** Every accepted forecast has one value for each target. *)
Lemma parse_length text vals : parse text targets = Some vals → length vals = length targets.
Proof.
  unfold parse_choice, values_at.
  destruct (forecast_block extract_html_tags text); simpl; [|done].
  destruct (forecast_dict float_of_str _); simpl; [|done].
  intros H. symmetry. by eapply length_mapM.
Qed.

Lemma accepted_lengths log : Forall (λ vals, length vals = length targets) (accepted_in log).
Proof.
  unfold accepted. apply Forall_forall. intros vals (text & _ & Hp)%list_elem_of_omap.
  by eapply parse_length.
Qed.

Lemma call_client_spec n messages (w : @world float) :
  call_client client (model self) n messages w =
    let answer := client (length (rounds w)) (model self) n messages in
    ({| self_of := self_of w; rounds := rounds w ++ [{| requested := n; reply := answer |}] |},
     match answer with inl e => Raised e | inr c => Returned c end).
Proof.
  unfold call_client. rewrite bind_unfold. simpl. rewrite bind_unfold. simpl.
  by destruct (client _ _ _ _).
Qed.

Lemma log_inv_snoc first budget log r :
  log_inv first budget log →
  requested r = policy first log →
  Z.of_nat (length (accepted_in log)) < n_samples →
  Z.of_nat (length log) < budget →
  log_inv first budget (log ++ [r]).
Proof.
  intros Hlog Hr Hacc Hb i r' Hi.
  destruct (decide (i < length log)%nat) as [Hlt|Hge].
  - rewrite lookup_app_l in Hi by done. rewrite take_app_le by lia. by apply Hlog.
  - apply lookup_lt_Some in Hi as Hlen. rewrite length_app in Hlen. simpl in Hlen.
    assert (i = length log) as -> by lia.
    rewrite list_lookup_middle in Hi by done. injection Hi as <-.
    rewrite take_app_length. done.
Qed.

Lemma take_short {A} (n : nat) (l : list A) : (length (take n l) < n)%nat → take n l = l.
Proof. rewrite length_take. intros H. apply take_ge. lia. Qed.

Lemma after_request_inv first budget (w : @world float) st completion :
  loop_inv first budget w st →
  Z.of_nat (length (valid_forecasts st)) < n_samples →
  let r := {| requested := batch_size_var st; reply := inr completion |} in
  loop_inv first budget {| self_of := self_of w; rounds := rounds w ++ [r] |}
    (after_request float_of_str extract_html_tags self task n_samples st completion)
  ∧ Z.of_nat (length (accepted_in (rounds w))) < n_samples.
Proof.
  intros [Hv Hi Ho Ht Hr Hb Hc] Hshort r.
  assert (valid_forecasts st = accepted_in (rounds w)) as Hall.
  { rewrite Hv. apply take_short. rewrite <- Hv. lia. }
  split; [|rewrite <- Hall; lia].
  unfold after_request. rewrite parse_choices_spec.
  assert (accepted_in (rounds w ++ [r])
          = valid_forecasts st ++ omap (λ text, parse text targets) (choices completion)) as Hacc.
  { by rewrite accepted_snoc, Hall. }
  split; simpl.
  - rewrite Hacc. unfold Py.slice_to.
    destruct (Z.leb_spec 0 n_samples); [done|lia].
  - by rewrite prompt_tokens_snoc, Hi.
  - by rewrite completion_tokens_snoc, Ho.
  - by rewrite texts_of_snoc, Ht.
  - rewrite length_app, Hr. simpl. lia.
  - unfold next_batch. rewrite Hacc.
    by destruct (rounds w ++ [r]) eqn:E; [destruct (rounds w); discriminate|].
  - apply Forall_app. split; [done|]. by repeat constructor.
Qed.

Local Abbreviation loop :=
  (λ fuel messages, while_loop float_of_str extract_html_tags fuel client self task n_samples messages).

(** The loop: it never runs out of fuel when started with as much fuel as
    retries, it leaves the engine object alone, it ends with the loop
    condition false or with the exception the backend raised at the last
    request, and the log keeps its invariant in every case. *)
Lemma while_loop_spec first budget messages fuel :
  ∀ st (w w' : @world float) out,
    loop_inv first budget w st →
    log_inv first budget (rounds w) →
    (Z.to_nat (n_retries_var st) ≤ fuel)%nat →
    loop fuel messages st w = (w', out) →
    self_of w' = self_of w
    ∧ log_inv first budget (rounds w')
    ∧ match out with
      | Returned st' =>
          loop_inv first budget w' st'
          ∧ ¬ (Z.of_nat (length (valid_forecasts st')) < n_samples ∧ 0 < n_retries_var st')
      | Raised e => ∃ log r, rounds w' = log ++ [r] ∧ reply r = inl e
      | OutOfFuel => False
      end.
Proof.
  induction fuel as [|fuel IH]; intros st w w' out Hinv Hlog Hfuel; simpl.
  - destruct (Z.ltb_spec (Z.of_nat (length (valid_forecasts st))) n_samples);
      destruct (Z.ltb_spec 0 (n_retries_var st)); simpl; try lia;
      intros [= <- <-]; (split; [done|]); (split; [done|]); (split; [done|lia]).
  - destruct (Z.ltb_spec (Z.of_nat (length (valid_forecasts st))) n_samples) as [Hshort|Hfull];
      [destruct (Z.ltb_spec 0 (n_retries_var st)) as [Hleft|Hnone]|]; simpl.
    2,3: intros [= <- <-]; (split; [done|]); (split; [done|]); (split; [done|lia]).
    rewrite bind_unfold, call_client_spec. simpl.
    set (r := {| requested := batch_size_var st; reply := client _ _ _ _ |}).
    assert (Z.of_nat (length (rounds w)) < budget) as Hbudget.
    { destruct Hinv as [_ _ _ _ Hr _ _]. lia. }
    destruct (client (length (rounds w)) (model self) (batch_size_var st) messages)
      as [e|completion] eqn:Hanswer.
    + intros [= <- <-]. simpl. split; [done|]. split.
      * destruct Hinv as [Hv _ _ _ _ Hb _].
        assert (valid_forecasts st = accepted_in (rounds w)) as Hall.
        { rewrite Hv. apply take_short. rewrite <- Hv. lia. }
        apply log_inv_snoc; [done|exact Hb|rewrite <- Hall; lia|done].
      * by exists (rounds w), r.
    + intros Hrun.
      destruct (after_request_inv first budget w st completion Hinv Hshort) as [Hinv' Hacc].
      apply IH in Hrun as (Hself & Hlog' & Hout).
      * done.
      * exact Hinv'.
      * simpl. destruct Hinv as [_ _ _ _ _ Hb _]. apply log_inv_snoc; [done|exact Hb|done|done].
      * unfold after_request. rewrite parse_choices_spec. simpl. lia.
Qed.

Local Abbreviation ok := (configuration_ok self n_samples).
Local Abbreviation first := (initial_batch self task n_samples).
Local Abbreviation budget := (retry_budget self task n_samples).
Local Abbreviation kept_of := (kept float_of_str extract_html_tags task n_samples).
Local Abbreviation charged_by := (charged true_div fmul fadd round_ndigits self).
Local Abbreviation report_of := (report true_div fmul fadd round_ndigits self).

Lemma check_configuration_spec (w : @world float) :
  (ok = true ∧ check_configuration self n_samples w = (w, Returned tt))
  ∨ (ok = false ∧ ∃ msg, check_configuration self n_samples w = (w, Raised (AssertionError msg))).
Proof.
  unfold configuration_ok, check_configuration. rewrite bind_unfold.
  destruct (Py.truthy (batch_size self)); simpl.
  - unfold assert. destruct (n_samples <=? _); simpl.
    + destruct (batch_size_on_retry self <=? _); simpl; [by left|right; eauto].
    + right; eauto.
  - unfold assert. destruct (batch_size_on_retry self <=? _); simpl; [by left|right; eauto].
Qed.

Lemma initial_policy_spec (w : @world float) :
  initial_policy self task n_samples w =
    (w, if zero_batch self task n_samples then Raised ZeroDivisionError
        else Returned (first, budget)).
Proof.
  unfold initial_policy, initial_batch, retry_budget, zero_batch.
  destruct (max_crazycast_batch_size task) as [m|]; simpl; [|done].
  rewrite bind_unfold. unfold floordiv.
  by destruct (Z.min (default_batch_size_of self n_samples) m =? 0).
Qed.

Lemma loop_inv_start : loop_inv first budget {| self_of := self; rounds := [] |}
  {| valid_forecasts := []; tokens_input := 0; tokens_output := 0; outputs := [];
     batch_size_var := first; n_retries_var := budget |}.
Proof.
  split; simpl; try done.
  - unfold accepted, texts_of. simpl. by rewrite take_nil.
  - lia.
Qed.

Lemma account_spec st (w : @world float) :
  self_of w = self →
  loop_inv first budget w st →
  account true_div fmul fadd round_ndigits self st w
  = ({| self_of := charged_by (rounds w); rounds := rounds w |}, Returned (report_of (rounds w))).
Proof.
  intros Hself [_ Hi Ho Ht _ _ _]. unfold account, charged, report, cost_of.
  rewrite Hi, Ho, Ht. destruct (token_cost self) as [prices|]; simpl.
  - rewrite bind_unfold. simpl. by rewrite Hself.
  - unfold mret, M_ret. rewrite <- Hself. by destruct w.
Qed.

(** Every way a call can end, read from its log. *)
Lemma run_spec self' log out :
  run float_of_str extract_html_tags true_div fmul fadd round_ndigits format_float str_array
    client self task n_samples = (self', log, out) →
  (ok = false ∧ self' = self ∧ log = [] ∧ ∃ msg, out = Raised (AssertionError msg))
  ∨ (ok = true ∧ zero_batch self task n_samples = true
     ∧ self' = self ∧ log = [] ∧ out = Raised ZeroDivisionError)
  ∨ (ok = true ∧ zero_batch self task n_samples = false ∧ log_inv first budget log
     ∧ ((self' = self ∧ ∃ e log0 r, log = log0 ++ [r] ∧ reply r = inl e ∧ out = Raised e)
        ∨ (Forall (λ r, is_Some (completion_of r)) log
           ∧ ¬ (Z.of_nat (length (kept_of log)) < n_samples ∧ Z.of_nat (length log) < budget)
           ∧ if fail_on_invalid self && (Z.of_nat (length (kept_of log)) <? n_samples)
             then self' = self
                  ∧ out = Raised (RuntimeError
                                    (insufficient_message n_samples (Z.of_nat (length (kept_of log)))))
             else self' = charged_by log
                  ∧ out = match kept_of log with
                          | [] => Raised IndexError
                          | _ => Returned (stacked (kept_of log), report_of log)
                          end))).
Proof.
  unfold run, acquire. rewrite bind_unfold. simpl. rewrite bind_unfold.
  destruct (check_configuration_spec {| self_of := self; rounds := [] |})
    as [[Hok ->]|[Hok [msg ->]]].
  2: { intros [= <- <- <-]. left. eauto. }
  rewrite bind_unfold, initial_policy_spec.
  destruct (zero_batch self task n_samples) eqn:Hzero.
  { intros [= <- <- <-]. right; left. done. }
  simpl. rewrite bind_unfold.
  destruct (while_loop _ _ _ _ _ _ _ _ _ _) as [w' res] eqn:Hloop.
  apply (while_loop_spec first budget) in Hloop as (Hself & Hlog & Hres);
    [|apply loop_inv_start|by intros i r Hi|simpl; lia].
  simpl in Hself. intros Hrun. right; right. split; [done|]. split; [done|].
  destruct res as [st|e|]; [| |done]; simpl in Hrun.
  2: { destruct Hres as (log0 & r & Hlog0 & Hr). injection Hrun as <- <- <-.
       split; [done|]. left. split; [done|]. by exists e, log0, r. }
  destruct Hres as [Hinv Hend]. pose proof Hinv as [Hv _ _ _ Hr _ Hc].
  assert (Z.of_nat (length (rounds w')) < budget ↔ 0 < n_retries_var st) as Hleft by lia.
  rewrite bind_unfold in Hrun.
  destruct (fail_on_invalid self && (Z.of_nat (length (valid_forecasts st)) <? n_samples)) eqn:Hfail;
    simpl in Hrun.
  { injection Hrun as <- <- <-. split; [done|]. right.
    unfold kept. rewrite <- Hv, Hfail. tauto. }
  rewrite bind_unfold, (account_spec st w' Hself Hinv) in Hrun. simpl in Hrun.
  rewrite bind_unfold in Hrun. unfold stack_samples in Hrun.
  destruct (valid_forecasts st) as [|row rows] eqn:Hvalid; simpl in Hrun;
    injection Hrun as <- <- <-; (split; [done|]); right;
    unfold kept, stacked; rewrite <- Hv, Hfail; simpl; tauto.
Qed.

Lemma configuration_ok_false : ok = false ↔ misconfigured self n_samples.
Proof.
  unfold configuration_ok, misconfigured, default_batch_size_of.
  destruct (batch_size self) as [b|]; simpl.
  - destruct (Z.eqb_spec b 0) as [->|Hb]; simpl.
    + rewrite Z.leb_gt. split; [by right|]. intros [(b & [= <-] & ? & _)|?]; done.
    + rewrite andb_false_iff, !Z.leb_gt. split.
      * intros [?|?]; [left; by exists b|by right].
      * intros [(b' & [= <-] & _ & ?)|?]; [by left|by right].
  - rewrite Z.leb_gt. split; [by right|]. by intros [(b & [=] & _)|?].
Qed.


(** A call ends: the loop is given as much fuel as it has retries. *)
Lemma run_terminates :
  (run float_of_str extract_html_tags true_div fmul fadd round_ndigits format_float str_array
     client self task n_samples).2 ≠ OutOfFuel.
Proof.
  destruct (run _ _ _ _ _ _ _ _ _ _ _ _) as [[self' log] out] eqn:Hrun. simpl.
  apply run_spec in Hrun as [(_ & _ & _ & msg & ->)|[(_ & _ & _ & _ & ->)|(_ & _ & _ & Hend)]];
    [done..|].
  destruct Hend as [(_ & e & log0 & r & _ & _ & ->)|(_ & _ & Hout)]; [done|].
  destruct (fail_on_invalid self && _); destruct Hout as [_ ->]; [done|].
  by destruct (kept _ _ _ _ _).
Qed.

(** X1. What a call returns: the first [n_samples] accepted forecasts in the
    order they were accepted, at least one and at most [n_samples] rows of
    the length of the horizon with one value per cell, and exactly
    [n_samples] rows when [fail_on_invalid] is set. *)
Lemma returned_samples self' log samples info :
  run float_of_str extract_html_tags true_div fmul fadd round_ndigits format_float str_array
    client self task n_samples = (self', log, Returned (samples, info)) →
  samples = stacked (kept_of log)
  ∧ (0 < length samples)%nat
  ∧ Z.of_nat (length samples) ≤ n_samples
  ∧ shape (length targets) samples
  ∧ (fail_on_invalid self = true → Z.of_nat (length samples) = n_samples).
Proof.
  intros [(_ & _ & _ & msg & [=])|[(_ & _ & _ & _ & [=])|(_ & _ & _ & Hend)]]%run_spec.
  destruct Hend as [(_ & e & log0 & r & _ & _ & [=])|(_ & _ & Hout)].
  assert (Z.of_nat (length (kept_of log)) ≤ n_samples ∨ kept_of log = []) as Hle.
  { unfold kept. rewrite length_take. destruct (Z.le_gt_cases 0 n_samples); [left; lia|right].
    replace (Z.to_nat n_samples) with 0%nat by lia. done. }
  destruct (fail_on_invalid self && _) eqn:Hfail; [by destruct Hout as [_ [=]]|].
  destruct Hout as [_ Hout].
  destruct (kept_of log) as [|row rows] eqn:Hkept; [done|].
  assert (samples = stacked (row :: rows)) as -> by congruence. clear Hout.
  destruct Hle as [Hle|[=]].
  assert (length (stacked (row :: rows)) = length (row :: rows)) as Hlen
    by (unfold stacked; by rewrite length_map).
  split; [done|]. rewrite Hlen. split; [simpl; lia|]. split; [done|]. split.
  - unfold shape, stacked. apply Forall_forall. intros cells Hcells.
    apply list_elem_of_In, in_map_iff in Hcells as (vals & <- & Hvals).
    split.
    + rewrite length_map.
      assert (vals ∈ accepted_in log) as Hin.
      { apply list_elem_of_In in Hvals. rewrite <- Hkept in Hvals. unfold kept in Hvals.
        apply elem_of_take in Hvals as (i & Hi & _). by eapply list_elem_of_lookup_2. }
      by apply (proj1 (Forall_forall _ _) (accepted_lengths log)).
    + apply Forall_forall. intros cell Hcell.
      apply list_elem_of_In, in_map_iff in Hcell as (v & Hv & _). by rewrite <- Hv.
  - intros Hfi. rewrite Hfi, andb_true_l in Hfail. apply Z.ltb_ge in Hfail. lia.
Qed.


(** C3 (amended). The assertions come before any request: when
    [batch_size] is set to a value other than zero and
    [batch_size * n_retries < n_samples], or when [batch_size_on_retry]
    exceeds the default batch size ([batch_size] if it is set and not zero,
    [n_samples] otherwise), the call raises an [AssertionError], the log of
    requests is empty and the engine object is untouched; and an
    [AssertionError] with an empty log has no other cause. With
    [n_samples = 5] and [batch_size = 2], three retries pass the first
    assertion (the call is then refused only if [batch_size_on_retry]
    exceeds 2) and two retries fail it. *)
Theorem configuration_checked_first self' log out :
  run float_of_str extract_html_tags true_div fmul fadd round_ndigits format_float str_array
    client self task n_samples = (self', log, out) →
  (misconfigured self n_samples
   ↔ self' = self ∧ log = [] ∧ ∃ msg, out = Raised (AssertionError msg))
  ∧ (batch_size self = Some 2 → n_samples = 5 →
     (n_retries self = 3 → (misconfigured self n_samples ↔ 2 < batch_size_on_retry self))
     ∧ (n_retries self = 2 → misconfigured self n_samples)).
Proof.
  intros Hrun. split.
  - rewrite <- configuration_ok_false.
    apply run_spec in Hrun as [(Hok & -> & -> & msg & ->)|[(Hok & _ & _ & _ & ->)|(Hok & _ & _ & Hend)]].
    + split; [eauto|done].
    + split; [congruence|]. by intros (_ & _ & msg & [=]).
    + split; [congruence|]. intros (_ & -> & msg & ->).
      destruct Hend as [(_ & e & log0 & r & Hnil & _)|(_ & _ & Hout)].
      * by destruct log0.
      * destruct (fail_on_invalid self && _); destruct Hout as [_ Hout]; [done|].
        by destruct (kept_of []).
  - unfold misconfigured, default_batch_size_of. intros -> ->. simpl. split.
    + intros ->. split; [intros [(b & [= <-] & _ & ?)|?]; [lia|done]|by right].
    + intros ->. left. exists 2. split; [done|]. lia.
Qed.

Lemma completions_of_log log :
  Forall (λ r, is_Some (completion_of r)) log →
  ∃ completions,
    reply <$> log = inr <$> completions
    ∧ prompt_tokens_of log = foldr Z.add 0 ((λ c, prompt_tokens (usage_of c)) <$> completions)
    ∧ completion_tokens_of log
      = foldr Z.add 0 ((λ c, completion_tokens (usage_of c)) <$> completions).
Proof.
  unfold prompt_tokens_of, completion_tokens_of.
  induction 1 as [|r log [c Hc] _ (cs & Hcs & Hin & Hout)]; [by exists []|].
  exists (c :: cs). unfold completion_of in *.
  rewrite !fmap_cons, Hcs. simpl. rewrite Hin, Hout.
  destruct (reply r) as [|c']; [done|]. by injection Hc as ->.
Qed.

(** C6. The token counters a call reports are the sums of what the
    backend reported for each round of the call, whatever became of the
    candidates of the round: every round answered with a completion, and
    the two totals add up the [prompt_tokens] and the [completion_tokens]
    of all of them. *)
Theorem token_counters self' log samples info :
  run float_of_str extract_html_tags true_div fmul fadd round_ndigits format_float str_array
    client self task n_samples = (self', log, Returned (samples, info)) →
  ∃ completions,
    reply <$> log = inr <$> completions
    ∧ total_input_tokens info = foldr Z.add 0 ((λ c, prompt_tokens (usage_of c)) <$> completions)
    ∧ total_output_tokens info
      = foldr Z.add 0 ((λ c, completion_tokens (usage_of c)) <$> completions).
Proof.
  intros [(_ & _ & _ & msg & [=])|[(_ & _ & _ & _ & [=])|(_ & _ & _ & Hend)]]%run_spec.
  destruct Hend as [(_ & e & log0 & r & _ & _ & [=])|(Hall & _ & Hout)].
  destruct (fail_on_invalid self && _); [by destruct Hout as [_ [=]]|].
  destruct Hout as [_ Hout]. destruct (kept_of log); [done|]. injection Hout as _ ->.
  simpl. by apply completions_of_log.
Qed.

Lemma cost_of_one_call prices self' log samples info :
  token_cost self = Some prices →
  run float_of_str extract_html_tags true_div fmul fadd round_ndigits format_float str_array
    client self task n_samples = (self', log, Returned (samples, info)) →
  let cost :=
    round_ndigits
      (fadd (fmul (true_div (prompt_tokens_of log) 1000) (input prices))
            (fmul (true_div (completion_tokens_of log) 1000) (output prices))) 2 in
  total_token_cost info = Some cost
  ∧ total_input_tokens info = prompt_tokens_of log
  ∧ total_output_tokens info = completion_tokens_of log
  ∧ self' = set_total_cost (fadd (total_cost self) cost) self.
Proof.
  intros Hprices [(_ & _ & _ & msg & [=])|[(_ & _ & _ & _ & [=])|(_ & _ & _ & Hend)]]%run_spec.
  destruct Hend as [(_ & e & log0 & r & _ & _ & [=])|(_ & _ & Hout)].
  destruct (fail_on_invalid self && _); [by destruct Hout as [_ [=]]|].
  destruct Hout as [-> Hout]. destruct (kept_of log); [done|]. injection Hout as _ ->.
  unfold charged, report, cost_of, call_cost. rewrite Hprices. done.
Qed.

(** C10. A call that ends with the error for insufficient samples
    leaves the engine object as it was, its [total_cost] included,
    whatever tokens its requests consumed. *)
Theorem failed_call_not_charged self' log got :
  run float_of_str extract_html_tags true_div fmul fadd round_ndigits format_float str_array
    client self task n_samples = (self', log, Raised (RuntimeError (insufficient_message n_samples got))) →
  total_cost self' = total_cost self ∧ self' = self.
Proof.
  intros [(_ & -> & _)|[(_ & _ & -> & _)|(_ & _ & _ & Hend)]]%run_spec; [done|done|].
  destruct Hend as [(-> & _)|(_ & _ & Hout)]; [done|].
  destruct (fail_on_invalid self && _); [by destruct Hout as [-> _]|].
  destruct Hout as [_ Hout]. by destruct (kept_of log).
Qed.

End EngineFacts.

(** ** Cost of a call and lifetime cost *)

(** C7. With [token_cost] configured, the cost a call reports is
    [round(total_input_tokens / 1000 * input + total_output_tokens / 1000 * output, 2)]
    on the token totals of the whole call, which are the sums over its
    rounds, and the call adds it to [total_cost]: after two calls in a row
    on the same engine object, [total_cost] is the initial value plus the
    cost of the first call plus the cost of the second. *)
Theorem lifetime_cost_accumulates {float : Type}
    (float_of_str : string → option float)
    (extract_html_tags : string → list string → gmap string (list string))
    (true_div : Z → Z → float) (fmul fadd : float → float → float)
    (round_ndigits : float → Z → float)
    (format_float : format_spec → Q → string) (str_array : list string → string)
    (client1 client2 : backend) (self self1 self2 : @CrazyCast float)
    (task1 task2 : task_instance) (n1 n2 : Z) (prices : token_prices)
    log1 samples1 info1 log2 samples2 info2 :
  token_cost self = Some prices →
  run float_of_str extract_html_tags true_div fmul fadd round_ndigits format_float str_array
    client1 self task1 n1 = (self1, log1, Returned (samples1, info1)) →
  run float_of_str extract_html_tags true_div fmul fadd round_ndigits format_float str_array
    client2 self1 task2 n2 = (self2, log2, Returned (samples2, info2)) →
  let cost info :=
    round_ndigits
      (fadd (fmul (true_div (total_input_tokens info) 1000) (input prices))
            (fmul (true_div (total_output_tokens info) 1000) (output prices))) 2 in
  total_input_tokens info1 = prompt_tokens_of log1
  ∧ total_output_tokens info1 = completion_tokens_of log1
  ∧ total_token_cost info1 = Some (cost info1)
  ∧ total_cost self1 = fadd (total_cost self) (cost info1)
  ∧ total_token_cost info2 = Some (cost info2)
  ∧ total_cost self2 = fadd (fadd (total_cost self) (cost info1)) (cost info2).
Proof.
  intros Hprices Hrun1 Hrun2. simpl.
  destruct (cost_of_one_call _ _ _ _ _ _ _ _ _ _ _ _ _ _ _ _ _ Hprices Hrun1)
    as (Hc1 & Hi1 & Ho1 & Hs1).
  assert (token_cost self1 = Some prices) as Hprices1 by (by rewrite Hs1).
  destruct (cost_of_one_call _ _ _ _ _ _ _ _ _ _ _ _ _ _ _ _ _ Hprices1 Hrun2)
    as (Hc2 & Hi2 & Ho2 & Hs2).
  rewrite Hi1, Ho1, Hi2, Ho2, Hc1, Hc2, Hs2, Hs1. done.
Qed.

(** ** Examples of calls *)


(** When [batch_size] is 0 the first assertion is skipped and the default
    batch size is [n_samples]: the configuration is an error as the
    specification words it, and the call goes through. *)
Lemma configuration_check_as_specified_fails :
  ¬ (misconfigured_as_specified (Scenario.engine true 3 (Some 0) 2 None) 5 →
     ∃ msg,
       Scenario.run Scenario.obedient (Scenario.engine true 3 (Some 0) 2 None) (Scenario.task None) 5
       = (Scenario.engine true 3 (Some 0) 2 None, [], Raised (AssertionError msg))).
Proof.
  intros H. destruct H as [msg Hmsg].
  - left. exists 0. split; [done|]. simpl. lia.
  - vm_compute in Hmsg. discriminate.
Qed.

Lemma configuration_checked_first_witness :
  ∃ msg,
    Scenario.run Scenario.obedient (Scenario.engine true 2 (Some 2) 2 None) (Scenario.task None) 5
    = (Scenario.engine true 2 (Some 2) 2 None, [], Raised (AssertionError msg)).
Proof.
  destruct (Scenario.run Scenario.obedient (Scenario.engine true 2 (Some 2) 2 None)
              (Scenario.task None) 5) as [[self' log] out] eqn:Hrun.
  destruct (configuration_checked_first _ _ _ _ _ _ _ _ _ _ _ _ _ _ _ Hrun) as [[Hfail _] _].
  destruct Hfail as (-> & -> & msg & ->).
  - left. exists 2. split; [done|]. split; [done|]. simpl. lia.
  - by exists msg.
Defined.

Lemma token_counters_witness :
  ∃ self' log samples info,
    Scenario.run Scenario.late (Scenario.engine false 2 None 2 None) (Scenario.task None) 2
    = (self', log, Returned (samples, info))
    ∧ total_input_tokens info = 200 ∧ total_output_tokens info = 80
    ∧ ∃ completions,
        reply <$> log = inr <$> completions
        ∧ total_input_tokens info = foldr Z.add 0 ((λ c, prompt_tokens (usage_of c)) <$> completions)
        ∧ total_output_tokens info
          = foldr Z.add 0 ((λ c, completion_tokens (usage_of c)) <$> completions).
Proof.
  eexists _, _, _, _. split; [vm_compute; reflexivity|]. split; [reflexivity|]. split; [reflexivity|].
  exact (token_counters Fixture.float_of_str Fixture.extract_html_tags
           Scenario.true_div Scenario.fmul Scenario.fadd Scenario.round_ndigits
           Scenario.format_float Scenario.str_array Scenario.late
           (Scenario.engine false 2 None 2 None) (Scenario.task None) 2 _ _ _ _ eq_refl).
Defined.

Lemma lifetime_cost_accumulates_witness :
  ∃ self1 log1 samples1 info1 self2 log2 samples2 info2,
    Scenario.run Scenario.late (Scenario.engine true 2 None 2 (Some Scenario.prices)) (Scenario.task None) 2
    = (self1, log1, Returned (samples1, info1))
    ∧ Scenario.run Scenario.obedient self1 (Scenario.task None) 2
      = (self2, log2, Returned (samples2, info2))
    ∧ total_token_cost info1 = Some (6 # 5)
    ∧ total_cost self1 = 6 # 5
    ∧ total_token_cost info2 = Some (4 # 5)
    ∧ total_cost self2 = 2%Q.
Proof.
  eexists _, _, _, _, _, _, _, _. split; [vm_compute; reflexivity|]. split; [vm_compute; reflexivity|].
  exact (proj2 (proj2 (lifetime_cost_accumulates Fixture.float_of_str Fixture.extract_html_tags
           Scenario.true_div Scenario.fmul Scenario.fadd Scenario.round_ndigits
           Scenario.format_float Scenario.str_array Scenario.late Scenario.obedient
           (Scenario.engine true 2 None 2 (Some Scenario.prices)) _ _
           (Scenario.task None) (Scenario.task None) 2 2 Scenario.prices
           _ _ _ _ _ _ eq_refl eq_refl eq_refl))).
Defined.

Lemma failed_call_not_charged_witness :
  ∃ self' log,
    Scenario.run Scenario.stubborn (Scenario.engine true 3 None 2 (Some Scenario.prices)) (Scenario.task None) 3
    = (self', log, Raised (RuntimeError (insufficient_message 3 0)))
    ∧ prompt_tokens_of log = 300
    ∧ total_cost self' = total_cost (Scenario.engine true 3 None 2 (Some Scenario.prices))
    ∧ self' = Scenario.engine true 3 None 2 (Some Scenario.prices).
Proof.
  eexists _, _. split; [vm_compute; reflexivity|]. split; [reflexivity|].
  exact (failed_call_not_charged Fixture.float_of_str Fixture.extract_html_tags
           Scenario.true_div Scenario.fmul Scenario.fadd Scenario.round_ndigits
           Scenario.format_float Scenario.str_array Scenario.stubborn
           (Scenario.engine true 3 None 2 (Some Scenario.prices)) (Scenario.task None) 3 _ _ 0 eq_refl).
Defined.

(** C1. With [fail_on_invalid] false and a backend whose only candidate
    has no forecast block, the loop ends with no valid forecast and the call
    does not return an array without rows: stacking the empty list raises
    [IndexError], after one request was sent. *)
Theorem no_valid_forecast_raises :
  Scenario.run Scenario.stubborn (Scenario.engine false 1 None 1 None) (Scenario.task None) 1
  = (Scenario.engine false 1 None 1 None,
     [{| requested := 1;
         reply := inr {| choices := [Scenario.bad_text];
                         usage_of := {| prompt_tokens := 100; completion_tokens := 10 |} |} |}],
     Raised IndexError).
Proof. vm_compute. reflexivity. Qed.

(** ** The format of the history values *)




(** ** The cache key *)

(** Membership and non-membership in a list of characters, by computation. *)
Ltac listed := apply (bool_decide_unpack _); vm_compute; exact I.

Section StringFacts.

Lemma app_cons c (a b : string) : String c a +:+ b = String c (a +:+ b).
Proof. reflexivity. Qed.

Lemma app_assoc (a b c : string) : (a +:+ b) +:+ c = a +:+ (b +:+ c).
Proof. induction a as [|x a IH]; [done|]. by rewrite !app_cons, IH. Qed.

Lemma app_length (a b : string) :
  String.length (a +:+ b) = (String.length a + String.length b)%nat.
Proof. induction a as [|x a IH]; [done|]. rewrite app_cons. simpl. by rewrite IH. Qed.

Lemma app_inv_tail (a b c : string) : a +:+ c = b +:+ c → a = b.
Proof.
  revert b. induction a as [|x a IH]; intros [|y b] H; [done| | |].
  - apply (f_equal String.length) in H. rewrite !app_length in H. simpl in H. lia.
  - apply (f_equal String.length) in H. rewrite !app_length in H. simpl in H. lia.
  - rewrite !app_cons in H. injection H as -> H. f_equal. by apply IH.
Qed.

Lemma occurs_app c (a b : string) : Py.occurs c (a +:+ b) = Py.occurs c a || Py.occurs c b.
Proof.
  induction a as [|x a IH]; [done|]. rewrite app_cons. simpl. by rewrite IH, orb_assoc.
Qed.

(** Two strings cut at the last occurrence of a character agree on both
    sides of the cut. *)
Lemma last_cut_inj c (a a' b b' : string) :
  Py.occurs c b = false → Py.occurs c b' = false →
  a +:+ String c b = a' +:+ String c b' → a = a' ∧ b = b'.
Proof.
  intros Hb Hb'. revert a'. induction a as [|x a IH]; intros [|y a'] H.
  - by injection H as ->.
  - rewrite app_cons in H. injection H as <- ->.
    rewrite occurs_app in Hb. simpl in Hb. rewrite bool_decide_eq_true_2 in Hb by done.
    by rewrite orb_true_r in Hb.
  - rewrite app_cons in H. injection H as -> <-.
    rewrite occurs_app in Hb'. simpl in Hb'. rewrite bool_decide_eq_true_2 in Hb' by done.
    by rewrite orb_true_r in Hb'.
  - rewrite !app_cons in H. injection H as -> H.
    destruct (IH _ H) as [-> ->]. done.
Qed.

Lemma str_bool_inj (b b' : bool) (s : string) :
  Py.str_bool b +:+ s = Py.str_bool b' +:+ s → b = b'.
Proof. intros H%app_inv_tail. by destruct b, b'. Qed.

Lemma str_bool_plain c (b : bool) : c ∉ ["T"; "r"; "u"; "e"; "F"; "a"; "l"; "s"]%char →
  Py.occurs c (Py.str_bool b) = false.
Proof.
  intros Hc. destruct b; simpl;
    repeat (rewrite bool_decide_eq_false_2; [simpl|intros <-; apply Hc; listed]); done.
Qed.

Lemma string_of_uint_digits c d :
  c ∉ ["0"; "1"; "2"; "3"; "4"; "5"; "6"; "7"; "8"; "9"]%char →
  Py.occurs c (NilEmpty.string_of_uint d) = false.
Proof.
  intros Hc. induction d as [|d IH|d IH|d IH|d IH|d IH|d IH|d IH|d IH|d IH|d IH]; simpl; [done|..];
    (rewrite bool_decide_eq_false_2; [by rewrite IH|intros <-; apply Hc; listed]).
Qed.

Lemma str_int_plain c n :
  c ∉ ["-"; "0"; "1"; "2"; "3"; "4"; "5"; "6"; "7"; "8"; "9"]%char →
  Py.occurs c (Py.str_int n) = false.
Proof.
  intros Hc.
  assert (∀ d, Py.occurs c (NilZero.string_of_uint d) = false) as Hd.
  { intros d. assert (Py.occurs c (NilEmpty.string_of_uint d) = false) as Hne.
    { apply string_of_uint_digits. intros Hin. apply Hc. by apply list_elem_of_further. }
    destruct d; try exact Hne. simpl.
    rewrite bool_decide_eq_false_2; [done|]. intros <-. apply Hc. listed. }
  unfold Py.str_int, NilZero.string_of_int. destruct (Z.to_int n); [done|]. simpl.
  rewrite Hd. rewrite bool_decide_eq_false_2; [done|]. intros <-. apply Hc. listed.
Qed.

Lemma str_int_inj (n n' : Z) : Py.str_int n = Py.str_int n' → n = n'.
Proof.
  unfold Py.str_int. intros H.
  assert (∀ z, NilZero.int_of_string (NilZero.string_of_int (Z.to_int z)) = Some (Z.to_int z)) as Hisi.
  { intros z. apply NilZero.isi; destruct z; simpl; try done;
      intros [= Hp]; by apply DecimalPos.Unsigned.to_uint_nonnil in Hp. }
  apply (f_equal NilZero.int_of_string) in H. rewrite !Hisi in H. injection H as H.
  apply (f_equal Z.of_int) in H. by rewrite !DecimalZ.of_to in H.
Qed.

End StringFacts.

Section CacheFacts.
Context {float : Type}.
(** [str] of a float: different values are written differently, and never
    with an [=] sign. *)
Variable str_float : float → string.
Hypothesis str_float_inj : ∀ x y, str_float x = str_float y → x = y.
Hypothesis str_float_plain : ∀ x, Py.occurs "=" (str_float x) = false.

Local Ltac flatten := repeat (rewrite app_cons || rewrite app_assoc).

Lemma cache_name_gpt (e : @CrazyCast float) :
  Py.startswith "gpt" (model e) = true →
  cache_name str_float e = key_invalid e +:+ String "=" (Py.str_int (n_retries e)).
Proof.
  intros H. unfold cache_name, key_invalid, key_context, key_model. rewrite H. simpl.
  flatten. reflexivity.
Qed.

Lemma cache_name_other (e : @CrazyCast float) :
  Py.startswith "gpt" (model e) = false →
  cache_name str_float e
  = (key_invalid e +:+ String "=" (Py.str_int (n_retries e) +:+ "_temperature"))
      +:+ String "=" (str_float (temperature e)).
Proof.
  intros H. unfold cache_name, key_invalid, key_context, key_model. rewrite H. simpl.
  flatten. reflexivity.
Qed.

Lemma eq_free_bool (b : bool) (s : string) :
  Py.occurs "=" s = false → Py.occurs "=" (Py.str_bool b +:+ s) = false.
Proof. intros Hs. rewrite occurs_app, Hs, str_bool_plain; [done|]. listed. Qed.

Lemma eq_free_int (n : Z) (s : string) :
  Py.occurs "=" s = false → Py.occurs "=" (Py.str_int n +:+ s) = false.
Proof. intros Hs. rewrite occurs_app, Hs, str_int_plain; [done|]. listed. Qed.

Lemma key_invalid_inj (e1 e2 : @CrazyCast float) :
  key_invalid e1 = key_invalid e2 →
  model e1 = model e2 ∧ use_context e1 = use_context e2
  ∧ fail_on_invalid e1 = fail_on_invalid e2.
Proof.
  unfold key_invalid. intros [Hc Hf]%last_cut_inj; [|by apply eq_free_bool..].
  unfold key_context in Hc. apply last_cut_inj in Hc as [Hm Hu]; [|by apply eq_free_bool..].
  unfold key_model in Hm. apply (inj (String.app _)), app_inv_tail in Hm.
  apply str_bool_inj in Hf, Hu. done.
Qed.

(** The end of the key tells whether the temperature is part of it. *)
Lemma key_kinds_differ (b : bool) (n : Z) :
  Py.str_bool b +:+ "_n_retries" ≠ Py.str_int n +:+ "_temperature".
Proof.
  intros H.
  assert (Py.str_bool b +:+ "_n_retries" = (Py.str_bool b +:+ "_n") +:+ String "_" "retries") as Hl
    by (flatten; reflexivity).
  rewrite Hl in H. by apply (last_cut_inj "_") in H as [_ [=]].
Qed.

(** C9 (amended). The cache key is a function of the model name, [use_context],
    [fail_on_invalid], [n_retries] and, for a model whose name does not
    start with [gpt], the temperature: two engines have the same key
    exactly when they agree on these, so a difference in any of them
    changes the key and a difference in anything else does not; in
    particular the key does not depend on [batch_size_on_retry]. *)
Theorem cache_name_spec (e1 e2 : @CrazyCast float) :
  (cache_name str_float e1 = cache_name str_float e2
   ↔ model e1 = model e2
     ∧ use_context e1 = use_context e2
     ∧ fail_on_invalid e1 = fail_on_invalid e2
     ∧ n_retries e1 = n_retries e2
     ∧ (Py.startswith "gpt" (model e1) = false → temperature e1 = temperature e2))
  ∧ ∀ b, cache_name str_float (with_batch_size_on_retry b e1) = cache_name str_float e1.
Proof.
  split; [|done]. split.
  - destruct (Py.startswith "gpt" (model e1)) eqn:H1;
      destruct (Py.startswith "gpt" (model e2)) eqn:H2;
      rewrite ?(cache_name_gpt e1), ?(cache_name_gpt e2),
              ?(cache_name_other e1), ?(cache_name_other e2) by done; intros H.
    + apply last_cut_inj in H as [Hk Hn]; [|by apply str_int_plain; listed..].
      apply key_invalid_inj in Hk as (? & ? & ?). apply str_int_inj in Hn. done.
    + apply last_cut_inj in H as [Hk _]; [|by apply str_int_plain; listed|done].
      unfold key_invalid in Hk at 1.
      apply last_cut_inj in Hk as [_ Hk];
        [|by apply eq_free_bool|by apply eq_free_int].
      by apply key_kinds_differ in Hk.
    + apply last_cut_inj in H as [Hk _]; [|done|by apply str_int_plain; listed].
      unfold key_invalid in Hk at 2.
      apply last_cut_inj in Hk as [_ Hk];
        [|by apply eq_free_int|by apply eq_free_bool].
      symmetry in Hk. by apply key_kinds_differ in Hk.
    + apply last_cut_inj in H as [Hk Ht]; [|done..].
      apply last_cut_inj in Hk as [Hk Hn]; [|by apply eq_free_int..].
      apply key_invalid_inj in Hk as (? & ? & ?).
      apply app_inv_tail, str_int_inj in Hn. apply str_float_inj in Ht. done.
  - intros (Hm & Hu & Hf & Hn & Ht). unfold cache_name. rewrite <- Hm, Hu, Hf, Hn.
    destruct (Py.startswith "gpt" (model e1)); [done|]. simpl. by rewrite Ht.
Qed.

End CacheFacts.

(** With temperatures given as integers, [str] writes them as [str_int]. *)
Lemma cache_name_spec_witness :
  cache_name Py.str_int
    {| model := "llama-3.1-405b-instruct"; use_context := true; fail_on_invalid := true;
       n_retries := 3; batch_size := None; batch_size_on_retry := 5; token_cost := None;
       total_cost := 0; temperature := 1 |}
  ≠ cache_name Py.str_int
      {| model := "llama-3.1-405b-instruct"; use_context := true; fail_on_invalid := true;
         n_retries := 3; batch_size := None; batch_size_on_retry := 5; token_cost := None;
         total_cost := 0; temperature := 2 |}.
Proof.
  intros H.
  apply (proj1 (cache_name_spec Py.str_int str_int_inj
                  (λ x, str_int_plain "=" x ltac:(listed)) _ _)) in H.
  destruct H as (_ & _ & _ & _ & Ht). specialize (Ht eq_refl). discriminate Ht.
Defined.

(** The Llama model is served by a remote endpoint, and its key changes
    with the temperature. *)
Lemma temperature_only_when_not_hosted_fails :
  ¬ temperature_only_when_not_hosted Py.str_int []
      {| model := "llama-3.1-405b-instruct"; use_context := true; fail_on_invalid := true;
         n_retries := 3; batch_size := None; batch_size_on_retry := 5; token_cost := None;
         total_cost := 0; temperature := 1 |}.
Proof.
  intros H. specialize (H 2). vm_compute in H.
  assert (true = false) as Habsurd; [|discriminate Habsurd].
  apply H. discriminate.
Qed.

(** ** More on a call: its requests, its failures and what it reports *)

Section CallFacts.
Context {float : Type}.
Variable float_of_str : string → option float.
Variable extract_html_tags : string → list string → gmap string (list string).
Variable true_div : Z → Z → float.
Variable fmul fadd : float → float → float.
Variable round_ndigits : float → Z → float.
Variable format_float : format_spec → Q → string.
Variable str_array : list string → string.

Variable client : backend.
Variable self : @CrazyCast float.
Variable task : task_instance.
Variable n_samples : Z.

Local Abbreviation accepted_in := (accepted float_of_str extract_html_tags (future_time task)).
Local Abbreviation kept_of := (kept float_of_str extract_html_tags task n_samples).
Local Abbreviation messages := (conversation format_float str_array (use_context self) task).

(** The loop appends to the log, each reply being the answer of the backend
    to the request as logged, and stops at the first reply that is an
    exception. *)
Lemma while_loop_log fuel :
  ∀ st (w w' : @world float) out,
    while_loop float_of_str extract_html_tags fuel client self task n_samples messages st w
    = (w', out) →
    ∃ new,
      rounds w' = rounds w ++ new
      ∧ (∀ i r, new !! i = Some r →
           reply r = client (length (rounds w) + i)%nat (model self) (requested r) messages)
      ∧ (∀ i r e, new !! i = Some r → reply r = inl e → S i = length new ∧ out = Raised e).
Proof.
  induction fuel as [|fuel IH]; intros st w w' out; simpl;
    destruct ((Z.of_nat (length (valid_forecasts st)) <? n_samples) && (0 <? n_retries_var st)).
  1-2,4: intros [= <- <-]; exists []; rewrite app_nil_r; by repeat split.
  rewrite bind_unfold, call_client_spec. simpl.
  destruct (client (length (rounds w)) (model self) (batch_size_var st) messages)
    as [e|completion] eqn:Hanswer.
  - intros [= <- <-]. eexists [_]. simpl. split; [done|]. split.
    + intros [|i] r [=]; subst. simpl. by rewrite Nat.add_0_r.
    + intros [|i] r e' [=]; subst. simpl. intros [= <-]. done.
  - intros (new & Hnew & Hfaith & Hexn)%IH. simpl in *.
    eexists (_ :: new). rewrite <- (assoc_L (++)) in Hnew. split; [exact Hnew|]. split.
    + intros [|i] r Hi; simpl in Hi.
      * injection Hi as <-. simpl. by rewrite Nat.add_0_r.
      * rewrite (Hfaith _ _ Hi), length_app. simpl. f_equal. lia.
    + intros [|i] r e Hi; simpl in Hi.
      * injection Hi as <-. simpl. done.
      * intros Hr. destruct (Hexn _ _ _ Hi Hr) as [Hlen ->]. simpl. by rewrite Hlen.
Qed.

Lemma account_rounds st (w : @world float) :
  rounds (account true_div fmul fadd round_ndigits self st w).1 = rounds w.
Proof. unfold account. by destruct (token_cost self). Qed.

(** The log of a call is the log its loop leaves. *)
Lemma run_loop self' log out :
  run float_of_str extract_html_tags true_div fmul fadd round_ndigits format_float str_array
    client self task n_samples = (self', log, out) →
  log = []
  ∨ ∃ fuel st w' res,
      while_loop float_of_str extract_html_tags fuel client self task n_samples messages st
        {| self_of := self; rounds := [] |} = (w', res)
      ∧ log = rounds w'.
Proof.
  unfold run, acquire. rewrite bind_unfold. simpl. rewrite bind_unfold.
  destruct (check_configuration_spec self n_samples {| self_of := self; rounds := [] |})
    as [[_ ->]|[_ [msg ->]]]; [|intros [= _ <- _]; by left].
  rewrite bind_unfold, initial_policy_spec.
  destruct (zero_batch self task n_samples); [intros [= _ <- _]; by left|].
  simpl. rewrite bind_unfold.
  destruct (while_loop _ _ _ _ _ _ _ _ _ _) as [w' res] eqn:Hloop.
  intros Hrun. right. eexists _, _, w', res. split; [exact Hloop|].
  destruct res as [st|e|]; simpl in Hrun; [|by injection Hrun as _ <- _..].
  rewrite bind_unfold in Hrun. destruct (fail_on_invalid self && _); simpl in Hrun;
    [by injection Hrun as _ <- _|].
  rewrite bind_unfold in Hrun. pose proof (account_rounds st w') as Hacc.
  destruct (account _ _ _ _ _ _ _) as [w'' [info| |]]; simpl in *;
    [|by injection Hrun as _ <- _..].
  rewrite bind_unfold in Hrun. unfold stack_samples in Hrun.
  destruct (valid_forecasts st); simpl in Hrun; by injection Hrun as _ <- _.
Qed.

Local Abbreviation the_call :=
  (run float_of_str extract_html_tags true_div fmul fadd round_ndigits format_float str_array
     client self task n_samples).

Lemma set_total_cost_same (e : @CrazyCast float) : set_total_cost (total_cost e) e = e.
Proof. by destruct e. Qed.

Lemma kept_length_lt log :
  0 < n_samples →
  (Z.of_nat (length (kept_of log)) < n_samples ↔ Z.of_nat (length (accepted_in log)) < n_samples).
Proof. intros Hn. unfold kept. rewrite length_take. lia. Qed.

Lemma kept_nil log : kept_of log = [] ↔ n_samples ≤ 0 ∨ accepted_in log = [].
Proof.
  unfold kept. destruct (accepted_in log) as [|row rows]; [rewrite take_nil; tauto|].
  destruct (Z.to_nat n_samples) eqn:Hn; simpl; [split; [left; lia|done]|].
  split; [done|]. intros [?|[=]]. lia.
Qed.

Lemma texts_of_completions log completions :
  reply <$> log = inr <$> completions → texts_of log = completions ≫= choices.
Proof.
  revert completions. induction log as [|r log IH]; intros [|c cs] H; try done.
  rewrite !fmap_cons in H. injection H as Hr H. unfold texts_of in *.
  rewrite !bind_cons, (IH _ H). unfold completion_of. by rewrite Hr.
Qed.

Lemma omap_length_le {A B} (f : A → option B) (l : list A) :
  (length (omap f l) ≤ length l)%nat.
Proof. induction l as [|x l IH]; csimpl; [done|]. destruct (f x); csimpl; lia. Qed.

Lemma squeeze_stacked (valid : list (list float)) : squeeze_last (stacked valid) = Some valid.
Proof.
  unfold squeeze_last, stacked. apply mapM_Some_2.
  induction valid as [|row rows IH]; simpl; constructor; [|done].
  apply mapM_Some_2. induction row; simpl; by constructor.
Qed.

(** X2. The backend is asked the same thing at every request of a call:
    the [k]-th reply in the log is its answer to the engine's model name,
    the number of candidates logged and the conversation built from the
    task before the loop. *)
Theorem same_conversation_every_request self' log out :
  run float_of_str extract_html_tags true_div fmul fadd round_ndigits format_float str_array
    client self task n_samples = (self', log, out) →
  ∀ i r, log !! i = Some r →
    reply r = client i (model self) (requested r)
                (conversation format_float str_array (use_context self) task).
Proof.
  intros [->|(fuel & st & w' & res & Hloop & ->)]%run_loop i r Hi; [done|].
  apply while_loop_log in Hloop as (new & Hnew & Hfaith & _). simpl in *.
  rewrite Hnew in Hi. by apply Hfaith.
Qed.

(** X3. An exception of the backend ends the call: the request it answers
    is the last of the log, the exception is the outcome of the call, and
    the engine object is left as it was. *)
Theorem backend_exception_ends_call self' log out i r e :
  run float_of_str extract_html_tags true_div fmul fadd round_ndigits format_float str_array
    client self task n_samples = (self', log, out) →
  log !! i = Some r → reply r = inl e →
  S i = length log ∧ out = Raised e ∧ self' = self.
Proof.
  intros Hrun Hi Hr.
  assert (S i = length log) as Hlast.
  { apply run_loop in Hrun as [->|(fuel & st & w' & res & Hloop & ->)]; [done|].
    apply while_loop_log in Hloop as (new & Hnew & _ & Hexn). simpl in *.
    rewrite Hnew in *. by destruct (Hexn _ _ _ Hi Hr). }
  split; [done|].
  apply run_spec in Hrun as [(_ & _ & -> & _)|[(_ & _ & _ & -> & _)|(_ & _ & _ & Hend)]];
    [done..|].
  destruct Hend as [(-> & e' & log0 & r' & -> & Hr' & ->)|(Hall & _)].
  - rewrite length_app in Hlast. simpl in Hlast.
    assert (i = length log0) as -> by lia. rewrite list_lookup_middle in Hi by done.
    injection Hi as <-. split; [congruence|done].
  - apply (proj1 (Forall_lookup _ _) Hall) in Hi as [c Hc].
    unfold completion_of in Hc. by rewrite Hr in Hc.
Qed.

(** X4. A request is sent only when the configuration passed its checks,
    fewer than [n_samples] forecasts were accepted in the rounds before, and
    fewer requests were sent than the policy allows; no request at all is
    sent for a non-positive [n_samples]. *)
Theorem requests_only_while_short self' log out :
  run float_of_str extract_html_tags true_div fmul fadd round_ndigits format_float str_array
    client self task n_samples = (self', log, out) →
  (∀ i r, log !! i = Some r →
     configuration_ok self n_samples = true
     ∧ Z.of_nat (length (accepted float_of_str extract_html_tags (future_time task) (take i log)))
       < n_samples
     ∧ Z.of_nat i < retry_budget self task n_samples)
  ∧ (n_samples ≤ 0 → log = []).
Proof.
  intros Hrun.
  assert (∀ i r, log !! i = Some r →
     configuration_ok self n_samples = true
     ∧ Z.of_nat (length (accepted_in (take i log))) < n_samples
     ∧ Z.of_nat i < retry_budget self task n_samples) as Hall.
  { apply run_spec in Hrun as [(_ & _ & -> & _)|[(_ & _ & _ & -> & _)|(Hok & _ & Hlog & _)]];
      [done..|].
    intros i r Hi. destruct (Hlog i r Hi) as (_ & ? & ?). done. }
  split; [done|]. intros Hn. destruct log as [|r log]; [done|].
  destruct (Hall 0%nat r eq_refl) as (_ & Hshort & _). simpl in Hshort. lia.
Qed.

(** X5. No request asks for more candidates than the cap of the task
    when there is one, nor for more than the default batch size when there
    is none. *)
Theorem request_sizes_bounded self' log out :
  run float_of_str extract_html_tags true_div fmul fadd round_ndigits format_float str_array
    client self task n_samples = (self', log, out) →
  ∀ r, r ∈ log →
    requested r ≤ default (default_batch_size_of self n_samples) (max_crazycast_batch_size task).
Proof.
  intros Hrun r Hr.
  apply run_spec in Hrun as [(_ & _ & -> & _)|[(_ & _ & _ & -> & _)|(Hok & _ & Hlog & _)]];
    [by apply elem_of_nil in Hr..|].
  apply list_elem_of_lookup_1 in Hr as [i Hi]. destruct (Hlog i r Hi) as (-> & _ & _).
  unfold configuration_ok in Hok. apply andb_prop in Hok as [_ Hretry%Z.leb_le].
  unfold next_batch, initial_batch.
  destruct (take i log), (max_crazycast_batch_size task); simpl; lia.
Qed.

(** X6. A call changes nothing of the engine object but [total_cost];
    it leaves the object as it was when no [token_cost] is configured, and
    whenever it ends otherwise than by returning or by the [IndexError] of
    an empty result. *)
Theorem call_changes_only_total_cost self' log out :
  run float_of_str extract_html_tags true_div fmul fadd round_ndigits format_float str_array
    client self task n_samples = (self', log, out) →
  self' = set_total_cost (total_cost self') self
  ∧ (token_cost self = None → self' = self)
  ∧ ((∀ result, out ≠ Returned result) → out ≠ Raised IndexError → self' = self).
Proof.
  intros Hrun.
  assert (self' = self
          ∨ self' = charged true_div fmul fadd round_ndigits self log
            ∧ ((∃ result, out = Returned result) ∨ out = Raised IndexError)) as [->|[-> Hout]].
  { apply run_spec in Hrun as [(_ & -> & _)|[(_ & _ & -> & _)|(_ & _ & _ & Hend)]]; [by left..|].
    destruct Hend as [(-> & _)|(_ & _ & Hout)]; [by left|].
    destruct (fail_on_invalid self && _); destruct Hout as [-> ->]; [by left|right].
    split; [done|]. destruct (kept_of log); eauto. }
  - by rewrite set_total_cost_same.
  - unfold charged. destruct (token_cost self); simpl.
    + split; [done|]. split; [done|]. intros Hnot Hidx. destruct Hout as [[result ->] | ->]; [|done].
      by destruct (Hnot result).
    + by rewrite set_total_cost_same.
Qed.

(** X7. [llm_outputs] holds every text the backend generated during the
    call, accepted or not, in the order of the rounds and of the choices in
    each round; the array returned has no more rows than there are texts. *)
Theorem llm_outputs_complete self' log samples info :
  run float_of_str extract_html_tags true_div fmul fadd round_ndigits format_float str_array
    client self task n_samples = (self', log, Returned (samples, info)) →
  ∃ completions,
    reply <$> log = inr <$> completions
    ∧ llm_outputs info = completions ≫= choices
    ∧ (length samples ≤ length (llm_outputs info))%nat.
Proof.
  intros [(_ & _ & _ & msg & [=])|[(_ & _ & _ & _ & [=])|(_ & _ & _ & Hend)]]%run_spec.
  destruct Hend as [(_ & e & log0 & r & _ & _ & [=])|(Hall & _ & Hout)].
  destruct (fail_on_invalid self && _); [by destruct Hout as [_ [=]]|].
  destruct Hout as [_ Hout]. destruct (kept_of log) as [|row rows] eqn:Hkept; [done|].
  assert (samples = stacked (row :: rows) ∧ info = report true_div fmul fadd round_ndigits self log)
    as [-> ->] by (split; congruence).
  destruct (completions_of_log log Hall) as (completions & Hcs & _).
  exists completions. split; [done|]. split; [simpl; by apply texts_of_completions|].
  unfold stacked. rewrite length_map, <- Hkept. unfold kept, accepted, report. simpl.
  rewrite length_take. etrans; [apply Nat.le_min_r|]. apply omap_length_le.
Qed.

(** X8. When a call returns: exactly when the configuration passes its
    checks, the capped first batch is not zero, the backend answered every
    request, [n_samples] is positive, at least one forecast was accepted,
    and, if [fail_on_invalid] is set, at least [n_samples] were. *)
Theorem call_returns_iff self' log out :
  run float_of_str extract_html_tags true_div fmul fadd round_ndigits format_float str_array
    client self task n_samples = (self', log, out) →
  (∃ samples info, out = Returned (samples, info))
  ↔ configuration_ok self n_samples = true
    ∧ zero_batch self task n_samples = false
    ∧ Forall (λ r, is_Some (completion_of r)) log
    ∧ 0 < n_samples
    ∧ accepted float_of_str extract_html_tags (future_time task) log ≠ []
    ∧ (fail_on_invalid self = true →
       n_samples ≤ Z.of_nat (length (accepted float_of_str extract_html_tags (future_time task) log))).
Proof.
  intros Hrun.
  apply run_spec in Hrun as [(Hok & _ & _ & msg & ->)|[(_ & Hzero & _ & _ & ->)|(Hok & Hzero & _ & Hend)]].
  { split; [by intros (? & ? & [=])|]. intros (? & _). congruence. }
  { split; [by intros (? & ? & [=])|]. intros (_ & ? & _). congruence. }
  destruct Hend as [(_ & e & log0 & r & -> & Hr & ->)|(Hall & _ & Hout)].
  { split; [by intros (? & ? & [=])|]. intros (_ & _ & Hall & _).
    apply Forall_app in Hall as [_ Hall]. apply Forall_singleton in Hall as [c Hc].
    unfold completion_of in Hc. by rewrite Hr in Hc. }
  pose proof (kept_nil log) as Hnil.
  destruct (fail_on_invalid self) eqn:Hfail; simpl in Hout.
  - destruct (Z.ltb_spec (Z.of_nat (length (kept_of log))) n_samples) as [Hlt|Hge];
      destruct Hout as [_ ->].
    + split; [by intros (? & ? & [=])|]. intros (_ & _ & _ & Hn & _ & Hfull).
      apply kept_length_lt in Hlt; [|done]. specialize (Hfull eq_refl). lia.
    + destruct (kept_of log) as [|row rows] eqn:Hkept.
      * split; [by intros (? & ? & [=])|]. intros (_ & _ & _ & Hn & Hne & _).
        destruct (proj1 Hnil eq_refl); [lia|done].
      * split; [|eauto]. intros _.
        assert (0 < n_samples ∧ accepted_in log ≠ []) as [Hn Hne].
        { split; [|intros Hacc; by pose proof (proj2 Hnil (or_intror Hacc))].
          destruct (Z.lt_ge_cases 0 n_samples) as [|Hle]; [done|].
          by pose proof (proj2 Hnil (or_introl Hle)). }
        repeat split; try done. intros _.
        destruct (Z.lt_ge_cases (Z.of_nat (length (accepted_in log))) n_samples) as [Hlt|]; [|done].
        apply kept_length_lt in Hlt; [|done]. rewrite Hkept in Hlt. lia.
  - destruct Hout as [_ ->]. destruct (kept_of log) as [|row rows] eqn:Hkept.
    + split; [by intros (? & ? & [=])|]. intros (_ & _ & _ & Hn & Hne & _).
      destruct (proj1 Hnil eq_refl); [lia|done].
    + split; [|eauto]. intros _.
      assert (0 < n_samples ∧ accepted_in log ≠ []) as [Hn Hne].
      { split; [|intros Hacc; by pose proof (proj2 Hnil (or_intror Hacc))].
        destruct (Z.lt_ge_cases 0 n_samples) as [|Hle]; [done|].
        by pose proof (proj2 Hnil (or_introl Hle)). }
      repeat split; done.
Qed.

(** X9. A call that ends with the [IndexError] of an empty result, the
    backend having answered every request, had [fail_on_invalid] unset or a
    non-positive [n_samples], had accepted no forecast it could keep, and has
    nevertheless added the cost of its tokens to [total_cost] when
    [token_cost] is configured. *)
Theorem empty_result_is_charged self' log :
  run float_of_str extract_html_tags true_div fmul fadd round_ndigits format_float str_array
    client self task n_samples = (self', log, Raised IndexError) →
  Forall (λ r, is_Some (completion_of r)) log →
  (fail_on_invalid self = false ∨ n_samples ≤ 0)
  ∧ (n_samples ≤ 0 ∨ accepted float_of_str extract_html_tags (future_time task) log = [])
  ∧ ∀ prices, token_cost self = Some prices →
      total_cost self'
      = fadd (total_cost self)
          (call_cost true_div fmul fadd round_ndigits prices
             (prompt_tokens_of log) (completion_tokens_of log)).
Proof.
  intros [(_ & _ & _ & msg & [=])|[(_ & _ & _ & _ & [=])|(_ & _ & _ & Hend)]]%run_spec Hall.
  destruct Hend as [(_ & e & log0 & r & -> & Hr & _)|(_ & _ & Hout)].
  { apply Forall_app in Hall as [_ Hall]. apply Forall_singleton in Hall as [c Hc].
    unfold completion_of in Hc. by rewrite Hr in Hc. }
  destruct (fail_on_invalid self && _) eqn:Hfail; [by destruct Hout as [_ [=]]|].
  destruct Hout as [-> Hout]. destruct (kept_of log) eqn:Hkept; [|done].
  apply kept_nil in Hkept as Hnil. split; [|split; [done|]].
  - apply andb_false_iff in Hfail as [?|Hge%Z.ltb_ge]; [by left|right]. simpl in Hge. lia.
  - intros prices Hprices. unfold charged, cost_of. by rewrite Hprices.
Qed.

(** X10. With a cap on the task that makes the first batch zero, a call
    whose configuration passes the checks raises [ZeroDivisionError] before
    any request, leaving the engine object as it was. *)
Theorem zero_cap_divides_by_zero m :
  configuration_ok self n_samples = true →
  max_crazycast_batch_size task = Some m →
  Z.min (default_batch_size_of self n_samples) m = 0 →
  run float_of_str extract_html_tags true_div fmul fadd round_ndigits format_float str_array
    client self task n_samples = (self, [], Raised ZeroDivisionError).
Proof.
  intros Hok Hcap Hzero.
  assert (zero_batch self task n_samples = true) as Hz.
  { unfold zero_batch. rewrite Hcap. by apply Z.eqb_eq. }
  destruct the_call as [[self' log] out] eqn:Hrun.
  apply run_spec in Hrun as [(? & _)|[(_ & _ & -> & -> & ->)|(_ & ? & _)]]; [congruence|done|congruence].
Qed.

(** X11. What [evaluate] takes from the array a call returns, dropping
    the last axis with [samples[:, :, 0]], is the list of the forecasts the
    call kept: the first [n_samples] accepted ones. *)
Theorem squeeze_returned_samples self' log samples info :
  run float_of_str extract_html_tags true_div fmul fadd round_ndigits format_float str_array
    client self task n_samples = (self', log, Returned (samples, info)) →
  squeeze_last samples
  = Some (take (Z.to_nat n_samples)
            (accepted float_of_str extract_html_tags (future_time task) log)).
Proof.
  intros [(_ & _ & _ & msg & [=])|[(_ & _ & _ & _ & [=])|(_ & _ & _ & Hend)]]%run_spec.
  destruct Hend as [(_ & e & log0 & r & _ & _ & [=])|(_ & _ & Hout)].
  destruct (fail_on_invalid self && _); [by destruct Hout as [_ [=]]|].
  destruct Hout as [_ Hout]. destruct (kept_of log) as [|row rows] eqn:Hkept; [done|].
  assert (samples = stacked (row :: rows)) as -> by congruence.
  rewrite squeeze_stacked. unfold kept in Hkept. by rewrite Hkept.
Qed.

End CallFacts.

(** ** More on the parser: lines, keys and the prompt's own format *)

Section LineFacts.

Lemma remove_app c (a b : string) : Py.remove c (a +:+ b) = Py.remove c a +:+ Py.remove c b.
Proof.
  induction a as [|x a IH]; [done|]. rewrite app_cons. simpl.
  case_decide; [done|]. by rewrite app_cons, IH.
Qed.

Lemma remove_free c (s : string) : Py.occurs c s = false → Py.remove c s = s.
Proof.
  induction s as [|x s IH]; [done|]. simpl. intros [Hx Hs]%orb_false_elim.
  apply bool_decide_eq_false in Hx. rewrite decide_False by done. by rewrite IH.
Qed.

Lemma occurs_remove c c' (s : string) :
  Py.occurs c (Py.remove c' s) = Py.occurs c s && negb (bool_decide (c = c')).
Proof.
  induction s as [|x s IH]; [done|]. simpl.
  destruct (decide (x = c')); simpl; rewrite IH; repeat case_bool_decide; subst; simpl;
    try done; try congruence; by destruct (Py.occurs _ s).
Qed.

Lemma split_free sep (s : string) : Py.occurs sep s = false → Py.split sep s = [s].
Proof.
  induction s as [|x s IH]; [done|]. simpl. intros [Hx Hs]%orb_false_elim.
  apply bool_decide_eq_false in Hx. rewrite decide_False by done. by rewrite IH.
Qed.

(** Cutting a text at an occurrence of the separator and splitting the two
    parts is splitting the text. *)
Lemma split_app_sep sep (a b : string) :
  Py.split sep (a +:+ String sep b) = Py.split sep a ++ Py.split sep b.
Proof.
  induction a as [|x a IH]; [simpl; by rewrite decide_True|].
  rewrite app_cons. simpl. rewrite IH. case_decide; [done|].
  pose proof (split_nonempty sep a). by destruct (Py.split sep a).
Qed.

(** The fields of a split hold no separator, and no character the text did
    not hold. *)
Lemma split_fields c sep (s x : string) :
  x ∈ Py.split sep s → (c = sep ∨ Py.occurs c s = false) → Py.occurs c x = false.
Proof.
  revert x. induction s as [|y s IH]; intros x; simpl.
  - intros ->%list_elem_of_singleton. done.
  - intros Hx Hc. pose proof (split_nonempty sep s) as Hne. case_decide as Hy.
    + apply elem_of_cons in Hx as [->|Hx]; [done|]. apply IH; [done|].
      destruct Hc as [?|[_ ?]%orb_false_elim]; auto.
    + destruct (Py.split sep s) as [|field fields] eqn:Hsplit; [done|].
      assert (Py.occurs c (String y s) = false → bool_decide (y = c) = false) as Hyc.
      { simpl. by intros [? _]%orb_false_elim. }
      assert (bool_decide (y = c) = false) as Hhead.
      { destruct Hc as [->|Hc]; [by apply bool_decide_eq_false|by apply Hyc]. }
      assert (c = sep ∨ Py.occurs c s = false) as Hc'.
      { destruct Hc as [?|[_ ?]%orb_false_elim]; auto. }
      apply elem_of_cons in Hx as [->|Hx].
      * simpl. rewrite Hhead. simpl. apply IH; [apply list_elem_of_here|done].
      * apply IH; [by apply list_elem_of_further|done].
Qed.

(** The lines of two blocks joined by a line break are the lines of the
    one followed by the lines of the other. *)
Lemma forecast_lines_app (a b : string) :
  forecast_lines (a +:+ String newline b) = forecast_lines a ++ forecast_lines b.
Proof.
  unfold forecast_lines. rewrite !remove_app. simpl. apply split_app_sep.
Qed.

(** The key a line of a block gives holds none of the characters the
    parser cuts at or removes. *)
Lemma line_key_free (block x : string) :
  x ∈ forecast_lines block → free_of cut_chars (line_key x).
Proof.
  unfold forecast_lines, line_key. intros Hx c Hc.
  set (text := Py.remove ")" (Py.remove "(" block)) in *.
  assert (c ∈ ["("; ")"; newline]%char → Py.occurs c x = false) as Hline.
  { intros Hin. apply (split_fields c newline text x Hx).
    unfold text. rewrite !occurs_remove.
    apply elem_of_cons in Hin as [->|Hin]; [right; by rewrite andb_false_r|].
    apply elem_of_cons in Hin as [->|Hin]; [right; by rewrite andb_false_r|].
    apply list_elem_of_singleton in Hin as ->. by left. }
  pose proof (split_nonempty "," x) as Hne.
  destruct (Py.split "," x) as [|field fields] eqn:Hsplit; [done|]. simpl.
  assert (c ∈ ["("; ")"; newline; ","]%char → Py.occurs c field = false) as Hfield.
  { intros Hin. apply (split_fields c "," x field); [rewrite Hsplit; apply list_elem_of_here|].
    destruct (decide (c = ","%char)) as [->|Hcomma]; [by left|right]. apply Hline.
    repeat (apply elem_of_cons in Hin as [->|Hin]; [listed|]).
    by apply list_elem_of_singleton in Hin. }
  rewrite !occurs_remove. unfold cut_chars in Hc.
  repeat (apply elem_of_cons in Hc as [->|Hc];
          [first [by rewrite Hfield by listed | by rewrite andb_false_r
                 | rewrite bool_decide_eq_true_2 by done; by rewrite andb_false_r]|]).
  by apply elem_of_nil in Hc.
Qed.

End LineFacts.

Section ParserMore.
Context {float : Type}.
Variable float_of_str : string → option float.
Variable extract_html_tags : string → list string → gmap string (list string).

Lemma app_nil_r (a : string) : a +:+ EmptyString = a.
Proof. induction a as [|x a IH]; [done|]. by rewrite app_cons, IH. Qed.

Lemma parse_line_empty : parse_line float_of_str EmptyString = None.
Proof. done. Qed.

Lemma rejected_line content block x targets :
  forecast_block extract_html_tags content = Some block →
  x ∈ forecast_lines block →
  parse_line float_of_str x = None →
  parse_choice float_of_str extract_html_tags content targets = None.
Proof.
  intros Hblock Hx Hline. unfold parse_choice, forecast_dict. rewrite Hblock. simpl.
  assert (mapM (parse_line float_of_str) (forecast_lines block) = None) as ->; [|done].
  apply mapM_None_2, Exists_exists. by exists x.
Qed.

Lemma dict_of_app_lookup (before after : list (string * float)) k v :
  k ∉ after.*1 → dict_of (before ++ (k, v) :: after) !! k = Some v.
Proof.
  induction after as [|[k' v'] after IH] using rev_ind; intros Hk.
  - rewrite dict_of_snoc. simpl. by rewrite lookup_insert_eq.
  - rewrite fmap_app in Hk. simpl in Hk. rewrite not_elem_of_app in Hk.
    destruct Hk as [Hafter Hk']. apply not_elem_of_cons in Hk' as [Hne _].
    change (before ++ (k, v) :: after ++ [(k', v')])
      with (before ++ ((k, v) :: after) ++ [(k', v')]).
    rewrite (assoc_L (++)), dict_of_snoc. simpl.
    rewrite lookup_insert_ne by done. by apply IH.
Qed.

(** X12. A block with an empty line is rejected whatever the other lines
    hold: a place of the block that is at once the start of a line (the
    start of the block, or just after a line break) and the end of a line
    (the end of the block, or just before a line break) gives a line with
    no comma. The empty block, a line break right after the opening mark or
    right before the closing one, and two line breaks in a row are such
    places. *)
Theorem empty_line_rejects content block (a b : string) targets :
  forecast_block extract_html_tags content = Some block →
  block = a +:+ b →
  (a = EmptyString ∨ ∃ a', a = a' +:+ String newline EmptyString) →
  (b = EmptyString ∨ ∃ b', b = String newline b') →
  parse_choice float_of_str extract_html_tags content targets = None.
Proof.
  intros Hblock -> Ha Hb.
  apply (rejected_line content _ EmptyString targets Hblock); [|apply parse_line_empty].
  assert (EmptyString ∈ forecast_lines EmptyString) as Hnil by apply list_elem_of_here.
  destruct Ha as [->|[a' ->]], Hb as [->|[b' ->]].
  - done.
  - rewrite (forecast_lines_app EmptyString b'). apply elem_of_app. by left.
  - rewrite app_nil_r, forecast_lines_app. apply elem_of_app. by right.
  - rewrite (forecast_lines_app (a' +:+ String newline EmptyString) b'), forecast_lines_app.
    apply elem_of_app. left. apply elem_of_app. by right.
Qed.

(** X13. When two lines of a block give the same timestamp, the value of
    the later one is the forecast: a line that parses and is followed by no
    line with the same key decides the value at every position of the
    targets where its timestamp stands. *)
Theorem repeated_timestamp_last_wins content block before x after t v targets vals :
  forecast_block extract_html_tags content = Some block →
  forecast_lines block = before ++ x :: after →
  parse_line float_of_str x = Some (t, v) →
  t ∉ line_key <$> after →
  parse_choice float_of_str extract_html_tags content targets = Some vals →
  ∀ k, targets !! k = Some t → vals !! k = Some v.
Proof.
  intros Hblock Hlines Hx Hafter Hparse k Hk.
  unfold parse_choice, forecast_dict in Hparse. rewrite Hblock in Hparse.
  simpl in Hparse. rewrite Hlines in Hparse.
  destruct (mapM (parse_line float_of_str) (before ++ x :: after)) as [items|] eqn:Hitems;
    [|done].
  simpl in Hparse. apply mapM_Some_1 in Hitems.
  apply Forall2_app_inv_l in Hitems as (ib & rest & Hb & Hrest & ->).
  apply Forall2_cons_inv_l in Hrest as (kv & ia & Hkv & Ha & ->).
  assert (kv = (t, v)) as -> by congruence.
  assert (ia.*1 = line_key <$> after) as Hkeys.
  { apply (mapM_parse_keys float_of_str). by apply mapM_Some_2. }
  apply mapM_Some_1 in Hparse.
  destruct (Forall2_lookup_l _ _ _ _ _ Hparse Hk) as (v' & Hv' & Hlook).
  rewrite dict_of_app_lookup in Hlook by (by rewrite Hkeys). congruence.
Qed.

End ParserMore.

Section HistoryEcho.
Context {float : Type}.
Variable float_of_str : string → option float.
Variable extract_html_tags : string → list string → gmap string (list string).
Variable format_float : format_spec → Q → string.

Local Ltac free_sub H :=
  let c := fresh "c" in
  let Hc := fresh "Hc" in
  intros c Hc; apply H;
  repeat (apply elem_of_cons in Hc as [->|Hc]; [listed|]); by apply elem_of_nil in Hc.

Lemma forecast_lines_join (l : list string) :
  l ≠ [] → forecast_lines (Py.join (String newline EmptyString) l) = l ≫= forecast_lines.
Proof.
  induction l as [|s [|s' rest] IH]; intros Hne; [done| |].
  - simpl. by rewrite (right_id_L [] (++)).
  - change (Py.join (String newline EmptyString) (s :: s' :: rest))
      with (s +:+ String newline (Py.join (String newline EmptyString) (s' :: rest))).
    rewrite forecast_lines_app, IH by done. done.
Qed.

Lemma forecast_lines_entry max_digits (t : string) (y : Q) :
  free_of ["("; ")"; newline]%char t →
  free_of ["("; ")"; newline]%char (format_float (history_format max_digits y) y) →
  forecast_lines (history_entry format_float max_digits (t, y))
  = [t +:+ String "," (" " +:+ format_float (history_format max_digits y) y)].
Proof.
  intros Ht Hf. unfold forecast_lines, history_entry. simpl.
  set (f := format_float (history_format max_digits y) y) in *.
  rewrite !remove_app. simpl.
  rewrite !(remove_free _ t), !(remove_free _ f) by (first [apply Ht|apply Hf]; listed).
  rewrite app_nil_r. apply split_free.
  rewrite occurs_app. simpl. rewrite ?occurs_app. simpl.
  rewrite (Ht newline), (Hf newline) by listed. done.
Qed.

Lemma parse_line_entry (t f : string) v :
  free_of cut_chars t → Py.occurs "," f = false →
  float_of_str (" " +:+ f) = Some v →
  parse_line float_of_str (t +:+ String "," (" " +:+ f)) = Some (t, v).
Proof.
  intros Ht Hf Hv. unfold parse_line. rewrite split_app_sep.
  rewrite (split_free "," t) by (apply Ht; listed).
  rewrite (split_free "," (" " +:+ f)) by (rewrite occurs_app; simpl; by rewrite Hf).
  simpl. rewrite Hv. simpl.
  by rewrite (remove_free "'" t), (remove_free dquote t) by (apply Ht; listed).
Qed.

Lemma dict_of_lookup_NoDup (items : list (string * float)) k v :
  NoDup items.*1 → (k, v) ∈ items → dict_of items !! k = Some v.
Proof.
  intros Hnd Hin. rewrite dict_of_list_to_map. apply elem_of_list_to_map_1.
  - by rewrite fmap_reverse, (reverse_Permutation (items.*1)).
  - by apply elem_of_reverse.
Qed.

(** X14. What the prompt shows is what the parser reads: a completion
    whose forecast block is written as [make_prompt] writes the history
    block (one [(timestamp, value)] entry a line, the same number format) is
    accepted, and gives back the value of every entry, in order. The series
    must not be empty (the empty block is one line without a comma), no
    timestamp stands twice, and neither timestamps nor formatted numbers hold
    the characters the parser works with. *)
Theorem history_format_parses_back max_digits (task : task_instance) content (value : Q → float) :
  past_time task ≠ [] →
  NoDup (past_time task).*1 →
  (∀ t y, (t, y) ∈ past_time task →
     free_of cut_chars t
     ∧ free_of ["("; ")"; newline; ","]%char (format_float (history_format max_digits y) y)
     ∧ float_of_str (" " +:+ format_float (history_format max_digits y) y) = Some (value y)) →
  forecast_block extract_html_tags content = Some (history_block format_float max_digits task) →
  parse_choice float_of_str extract_html_tags content (past_time task).*1
  = Some (value <$> (past_time task).*2).
Proof.
  intros Hne Hnd Hok Hblock. unfold history_block in Hblock.
  set (entries := past_time task) in *.
  set (items := (λ ty : string * Q, (ty.1, value ty.2)) <$> entries).
  assert (items.*1 = entries.*1) as Hkeys.
  { unfold items. rewrite <- list_fmap_compose. done. }
  rewrite (parse_unfold float_of_str extract_html_tags content _ _ items Hblock).
  - apply mapM_Some_2. rewrite <- !list_fmap_compose.
    apply Forall2_fmap, Forall_Forall2_diag, Forall_forall. intros [t y] Hty. simpl.
    apply dict_of_lookup_NoDup; [by rewrite Hkeys|].
    apply list_elem_of_fmap. by exists (t, y).
  - rewrite forecast_lines_join by (by destruct entries).
    apply mapM_Some_2. unfold items. clear Hne Hnd Hblock Hkeys items.
    induction entries as [|[t y] entries IH]; [constructor|].
    destruct (Hok t y) as (Ht & Hf & Hv); [apply list_elem_of_here|].
    rewrite fmap_cons. simpl.
    rewrite forecast_lines_entry by (first [free_sub Ht|free_sub Hf]).
    simpl. constructor.
    + apply parse_line_entry; [done|apply Hf; listed|done].
    + apply IH. intros t' y' Hin. apply Hok. by apply list_elem_of_further.
Qed.

End HistoryEcho.

(** ** The other clients *)

Section ObjectFacts.

Lemma assoc_dict_to_obj key entries :
  assoc key (List.map (λ kv, (fst kv, dict_to_obj (snd kv))) entries)
  = dict_to_obj <$> assoc key entries.
Proof.
  induction entries as [|[k v] entries IH]; [done|]. simpl. by case_decide.
Qed.

Lemma index_dict_to_obj (items : list pyval) (i : nat) :
  List.map dict_to_obj items !! i = dict_to_obj <$> items !! i.
Proof. apply list_lookup_fmap. Qed.

Lemma assoc_is_json key entries v :
  forallb (λ kv, is_json (snd kv)) entries = true → assoc key entries = Some v →
  is_json v = true.
Proof.
  induction entries as [|[k v'] entries IH]; [done|]. simpl.
  intros [Hv Hrest]%andb_prop. case_decide; [by intros [= <-]|by apply IH].
Qed.

Lemma index_is_json (items : list pyval) (i : nat) v :
  forallb is_json items = true → items !! i = Some v → is_json v = true.
Proof.
  revert i. induction items as [|v' items IH]; intros [|i]; simpl; try done.
  - intros [Hv _]%andb_prop [= <-]. done.
  - intros [_ Hrest]%andb_prop. by apply IH.
Qed.

Lemma key_converted (data d : pyval) (key : string) :
  getitem_key data key = Some d → getattr (dict_to_obj data) key = Some (dict_to_obj d).
Proof.
  destruct data as [| | | |entries|]; try done. simpl.
  rewrite assoc_dict_to_obj. by intros ->.
Qed.

Lemma index_converted (data : pyval) (i : nat) :
  getitem_index (dict_to_obj data) i = dict_to_obj <$> getitem_index data i.
Proof. destruct data as [| | |items| |]; try done. simpl. apply index_dict_to_obj. Qed.

Lemma two_keys_converted (a b : string) (data v : pyval) :
  subscript [Key a; Key b] data = Some v →
  attribute [Key a; Key b] (dict_to_obj data) = Some (dict_to_obj v).
Proof.
  simpl. destruct (getitem_key data a) as [d|] eqn:Ha; [|done]. simpl.
  destruct (getitem_key d b) as [d'|] eqn:Hb; [|done]. simpl. intros [= ->].
  rewrite (key_converted _ _ _ Ha). simpl. by rewrite (key_converted _ _ _ Hb).
Qed.

(** X15. What a chain of subscripts reads from a decoded response, the
    same chain reads from the converted object with attributes in the place
    of keys, converted in its turn: [data["a"][0]["b"]] becomes
    [obj.a[0].b]. *)
Theorem dict_to_obj_attribute_access (path : list step) (data v : pyval) :
  subscript path data = Some v →
  attribute path (dict_to_obj data) = Some (dict_to_obj v).
Proof.
  revert data. induction path as [|[key|i] path IH]; intros data; simpl.
  - by intros [= ->].
  - destruct (getitem_key data key) as [d|] eqn:Hd; [|done]. simpl.
    rewrite (key_converted _ _ _ Hd). simpl. apply IH.
  - rewrite index_converted. destruct (getitem_index data i) as [d|]; [|done]. simpl. apply IH.
Qed.

(** X16. On decoded JSON the conversion adds nothing and leaves no
    dictionary behind: whatever a chain of attributes and positions reads
    from the converted object is the conversion of what the same chain of
    subscripts reads from the data, so it is never a dictionary, and a key
    that is missing in the data is an attribute that is missing in the
    object. *)
Theorem dict_to_obj_nothing_else (path : list step) (data w : pyval) :
  is_json data = true →
  attribute path (dict_to_obj data) = Some w →
  (∃ v, subscript path data = Some v ∧ is_json v = true ∧ w = dict_to_obj v)
  ∧ ∀ entries, w ≠ PDict entries.
Proof.
  intros Hjson Hw.
  assert (∃ v, subscript path data = Some v ∧ is_json v = true ∧ w = dict_to_obj v)
    as (v & Hv & Hjv & ->).
  { revert data Hjson Hw. induction path as [|[key|i] path IH]; intros data Hjson; simpl.
    - intros [= <-]. by exists data.
    - destruct data as [| | | |entries|]; try done. simpl.
      rewrite assoc_dict_to_obj. destruct (assoc key entries) as [d|] eqn:Hd; [|done]. simpl.
      apply IH. by apply (assoc_is_json key entries).
    - destruct data as [| | |items| |]; try done. simpl.
      rewrite index_dict_to_obj. destruct (items !! i) as [d|] eqn:Hd; [|done]. simpl.
      apply IH. by apply (index_is_json items i). }
  split; [by exists v|]. intros entries. by destruct v.
Qed.

(** X17. The response of the Llama endpoint as the call reads it: when
    the decoded JSON has the two token counts under [usage] and a list of
    [choices] with a text under [message], [content] each, the object
    [dict_to_obj] returns gives [__call__] these counts and these texts,
    whatever else the response holds. *)
Theorem converted_response_read (json : pyval) (p c : Z) (items : list pyval)
    (texts : list string) :
  subscript [Key "usage"; Key "prompt_tokens"]%string json = Some (PInt p) →
  subscript [Key "usage"; Key "completion_tokens"]%string json = Some (PInt c) →
  subscript [Key "choices"]%string json = Some (PList items) →
  Forall2 (λ item text,
             subscript [Key "message"; Key "content"]%string item = Some (PStr text))
          items texts →
  read_completion (dict_to_obj json)
  = Some {| choices := texts;
            usage_of := {| prompt_tokens := p; completion_tokens := c |} |}.
Proof.
  intros Hp%two_keys_converted Hc%two_keys_converted Hitems Htexts.
  assert (getattr (dict_to_obj json) "choices" = Some (PList (List.map dict_to_obj items)))
    as Hchoices.
  { simpl in Hitems. destruct (getitem_key json "choices") as [d|] eqn:Hd; [|done].
    injection Hitems as ->. by rewrite (key_converted _ _ _ Hd). }
  clear Hitems.
  assert (mapM (λ choice, attribute [Key "message"; Key "content"]%string choice ≫= read_str)
               (List.map dict_to_obj items) = Some texts) as Hread.
  { apply mapM_Some_2. clear Hchoices.
    induction Htexts as [|item text items texts Hitem _ IH]; [constructor|].
    rewrite map_cons. constructor; [|done].
    apply two_keys_converted in Hitem. by rewrite Hitem. }
  unfold read_completion. rewrite Hp, Hc, Hchoices. cbn -[attribute]. by rewrite Hread.
Qed.

End ObjectFacts.

Section LocalModel.
Context {float : Type}.
Variable float_of_str : string → option float.
Variable extract_html_tags : string → list string → gmap string (list string).
Variable true_div : Z → Z → float.
Variable fmul fadd : float → float → float.
Variable round_ndigits : float → Z → float.
Variable format_float : format_spec → Q → string.
Variable str_array : list string → string.
(** [hf_generate] with the model and tokenizer of the engine: the texts of
    the [k]-th generation of a call, for a prompt and a batch size. *)
Variable hf_generate : nat → string → Z → exn + list string.
Variable self : @CrazyCast float.
Variable task : task_instance.
Variable n_samples : Z.

Lemma no_tokens_of (log : list round) :
  Forall (λ r, ∀ c, completion_of r = Some c
                    → usage_of c = {| prompt_tokens := 0; completion_tokens := 0 |}) log →
  prompt_tokens_of log = 0 ∧ completion_tokens_of log = 0.
Proof.
  unfold prompt_tokens_of, completion_tokens_of.
  induction 1 as [|r log Hr _ [IHp IHc]]; [done|].
  rewrite !fmap_cons. simpl. rewrite IHp, IHc.
  destruct (completion_of r) as [c|]; [|done]. simpl. by rewrite (Hr c eq_refl).
Qed.

(** X18. A call served by a local model. Every generation is asked for
    the prompt made of the system text and the user prompt, each followed by
    a line break, with the batch size of the request; the texts it returns
    are the candidates of the round. The client reports no tokens, so the
    call reports none and the cost it estimates is the cost of no tokens,
    whatever was generated. *)
Theorem local_model_reports_no_tokens self' log samples info :
  run float_of_str extract_html_tags true_div fmul fadd round_ndigits format_float str_array
    (huggingface_backend hf_generate) self task n_samples
  = (self', log, Returned (samples, info)) →
  (∀ i r, log !! i = Some r →
     ∃ responses,
       hf_generate i
         ("You are a useful forecasting assistant." +:+ String newline EmptyString
          +:+ make_prompt format_float str_array (use_context self) task 6
          +:+ String newline EmptyString) (requested r) = inr responses
       ∧ completion_of r = Some {| choices := responses;
                                   usage_of := {| prompt_tokens := 0;
                                                  completion_tokens := 0 |} |})
  ∧ total_input_tokens info = 0
  ∧ total_output_tokens info = 0
  ∧ ∀ prices, token_cost self = Some prices →
      total_token_cost info = Some (call_cost true_div fmul fadd round_ndigits prices 0 0)
      ∧ total_cost self'
        = fadd (total_cost self) (call_cost true_div fmul fadd round_ndigits prices 0 0).
Proof.
  intros Hrun.
  assert (∀ i r, log !! i = Some r →
            reply r = huggingface_backend hf_generate i (model self) (requested r)
                        (conversation format_float str_array (use_context self) task))
    as Hreplies.
  { pose proof Hrun as [->|(fuel & st & w' & res & Hloop & ->)]%run_loop; [done|].
    apply while_loop_log in Hloop as (new & Hnew & Hfaith & _). simpl in *.
    intros i r Hi. rewrite Hnew in Hi. by apply Hfaith. }
  apply run_spec in Hrun
    as [(_ & _ & _ & msg & [=])|[(_ & _ & _ & _ & [=])|(_ & _ & _ & Hend)]].
  destruct Hend as [(_ & e & log0 & r & _ & _ & [=])|(Hall & _ & Hout)].
  destruct (fail_on_invalid self && _); [by destruct Hout as [_ [=]]|].
  destruct Hout as [-> Hout].
  destruct (kept float_of_str extract_html_tags task n_samples log); [done|].
  injection Hout as _ ->.
  assert (∀ i r, log !! i = Some r →
     ∃ responses,
       hf_generate i
         ("You are a useful forecasting assistant." +:+ String newline EmptyString
          +:+ make_prompt format_float str_array (use_context self) task 6
          +:+ String newline EmptyString) (requested r) = inr responses
       ∧ completion_of r = Some {| choices := responses;
                                   usage_of := {| prompt_tokens := 0;
                                                  completion_tokens := 0 |} |}) as Hgen.
  { intros i r Hi. pose proof (Hreplies i r Hi) as Hr.
    pose proof (proj1 (Forall_lookup _ _) Hall i r Hi) as [c Hc].
    unfold completion_of in *. unfold huggingface_backend, huggingface_model_client in Hr.
    change (hf_prompt (conversation format_float str_array (use_context self) task))
      with ("You are a useful forecasting assistant." +:+ String newline EmptyString
            +:+ make_prompt format_float str_array (use_context self) task 6
            +:+ String newline EmptyString) in Hr.
    destruct (hf_generate i _ (requested r)) as [e|responses]; rewrite Hr in *; [done|].
    by exists responses. }
  assert (prompt_tokens_of log = 0 ∧ completion_tokens_of log = 0) as [Hp Hc].
  { apply no_tokens_of, Forall_lookup. intros i r Hi c Hc.
    destruct (Hgen i r Hi) as (responses & _ & Hr). rewrite Hr in Hc. by injection Hc as <-. }
  split; [exact Hgen|]. simpl. split; [done|]. split; [done|].
  intros prices Hprices. unfold charged, cost_of. rewrite Hprices, Hp, Hc. done.
Qed.

End LocalModel.

Section ClientFacts.
Context {float : Type}.
Variable str_float : float → string.
Hypothesis str_float_inj : ∀ x y, str_float x = str_float y → x = y.

Lemma app_inv_head (a b c : string) : a +:+ b = a +:+ c → b = c.
Proof. induction a as [|x a IH]; [done|]. rewrite !app_cons. intros [= H]. by apply IH. Qed.

Lemma get_client_gpt llm_map_keys model kind :
  get_client llm_map_keys model = Some kind →
  Py.startswith "gpt" model = match kind with OpenAIClient => true | _ => false end.
Proof.
  unfold get_client. destruct (Py.startswith "gpt" model); [by intros [= <-]|].
  repeat case_decide; by intros [= <-].
Qed.

(** X19. The cache key and the client agree on the temperature: for a
    model [get_client] supports, two engines that differ in temperature only
    have the same key exactly when their clients are the same, that is, when
    the client is an OpenAI one, which is not given the temperature, or the
    temperatures are equal. *)
Theorem key_follows_client_temperature llm_map_keys (self : @CrazyCast float) kind t :
  get_client llm_map_keys (model self) = Some kind →
  cache_name str_float (with_temperature t self) = cache_name str_float self
  ↔ client_temperature kind (with_temperature t self) = client_temperature kind self.
Proof.
  intros Hgpt%get_client_gpt.
  assert (Py.startswith "gpt" (model (with_temperature t self))
          = Py.startswith "gpt" (model self)) as Hsame by done.
  destruct kind.
  - rewrite !cache_name_gpt by done. done.
  - rewrite !cache_name_other by done. simpl. split.
    + intros H. apply app_inv_head in H. injection H as H. f_equal. by apply str_float_inj.
    + by intros [= ->].
  - rewrite !cache_name_other by done. simpl. split.
    + intros H. apply app_inv_head in H. injection H as H. f_equal. by apply str_float_inj.
    + by intros [= ->].
Qed.

End ClientFacts.

(** ** The properties of the last sections on the examples *)

Lemma returned_samples_witness :
  ∃ self' log samples info,
    Scenario.run Scenario.late (Scenario.engine true 2 None 2 None) (Scenario.task None) 2
    = (self', log, Returned (samples, info))
    ∧ samples = [[[4%Q]; [9 # 2]]; [[4%Q]; [9 # 2]]]
    ∧ samples = stacked (kept Fixture.float_of_str Fixture.extract_html_tags
                           (Scenario.task None) 2 log)
    ∧ (0 < length samples)%nat
    ∧ Z.of_nat (length samples) ≤ 2
    ∧ shape (length (future_time (Scenario.task None))) samples
    ∧ (fail_on_invalid (Scenario.engine true 2 None 2 None) = true
       → Z.of_nat (length samples) = 2).
Proof.
  eexists _, _, _, _. split; [vm_compute; reflexivity|]. split; [reflexivity|].
  exact (returned_samples Fixture.float_of_str Fixture.extract_html_tags
           Scenario.true_div Scenario.fmul Scenario.fadd Scenario.round_ndigits
           Scenario.format_float Scenario.str_array Scenario.late
           (Scenario.engine true 2 None 2 None) (Scenario.task None) 2 _ _ _ _ eq_refl).
Defined.

Lemma same_conversation_every_request_witness :
  ∃ self' log out,
    Scenario.run Scenario.late (Scenario.engine true 2 None 2 None) (Scenario.task None) 2
    = (self', log, out)
    ∧ length log = 2%nat
    ∧ ∀ i r, log !! i = Some r →
        reply r = Scenario.late i "gpt-4o" (requested r)
                    (conversation Scenario.format_float Scenario.str_array true
                       (Scenario.task None)).
Proof.
  eexists _, _, _. split; [vm_compute; reflexivity|]. split; [reflexivity|].
  exact (same_conversation_every_request Fixture.float_of_str Fixture.extract_html_tags
           Scenario.true_div Scenario.fmul Scenario.fadd Scenario.round_ndigits
           Scenario.format_float Scenario.str_array Scenario.late
           (Scenario.engine true 2 None 2 None) (Scenario.task None) 2 _ _ _ eq_refl).
Defined.

Lemma backend_exception_ends_call_witness :
  ∃ self' log out r,
    Scenario.run Cases.failing (Scenario.engine false 3 None 2 (Some Scenario.prices))
      (Scenario.task None) 2 = (self', log, out)
    ∧ log !! 1%nat = Some r
    ∧ reply r = inl (ClientError "timeout")
    ∧ 2%nat = length log
    ∧ out = Raised (ClientError "timeout")
    ∧ self' = Scenario.engine false 3 None 2 (Some Scenario.prices).
Proof.
  eexists _, _, _, _. split; [vm_compute; reflexivity|]. split; [reflexivity|].
  split; [reflexivity|].
  exact (backend_exception_ends_call Fixture.float_of_str Fixture.extract_html_tags
           Scenario.true_div Scenario.fmul Scenario.fadd Scenario.round_ndigits
           Scenario.format_float Scenario.str_array Cases.failing
           (Scenario.engine false 3 None 2 (Some Scenario.prices)) (Scenario.task None) 2
           _ _ _ 1%nat _ _ eq_refl eq_refl eq_refl).
Defined.

Lemma requests_only_while_short_witness :
  ∃ self' log out,
    Scenario.run Scenario.sparse (Scenario.engine false 3 None 2 None) (Scenario.task (Some 4)) 5
    = (self', log, out)
    ∧ length log = 4%nat
    ∧ (∀ i r, log !! i = Some r →
         configuration_ok (Scenario.engine false 3 None 2 None) 5 = true
         ∧ Z.of_nat (length (accepted Fixture.float_of_str Fixture.extract_html_tags
                               (future_time (Scenario.task (Some 4))) (take i log))) < 5
         ∧ Z.of_nat i
           < retry_budget (Scenario.engine false 3 None 2 None) (Scenario.task (Some 4)) 5)
    ∧ (5 ≤ 0 → log = []).
Proof.
  eexists _, _, _. split; [vm_compute; reflexivity|]. split; [reflexivity|].
  exact (requests_only_while_short Fixture.float_of_str Fixture.extract_html_tags
           Scenario.true_div Scenario.fmul Scenario.fadd Scenario.round_ndigits
           Scenario.format_float Scenario.str_array Scenario.sparse
           (Scenario.engine false 3 None 2 None) (Scenario.task (Some 4)) 5 _ _ _ eq_refl).
Defined.

Lemma request_sizes_bounded_witness :
  ∃ self' log out,
    Scenario.run Scenario.sparse (Scenario.engine false 3 None 2 None) (Scenario.task (Some 4)) 5
    = (self', log, out)
    ∧ requested <$> log = [4; 4; 3; 2]
    ∧ ∀ r, r ∈ log → requested r ≤ 4.
Proof.
  eexists _, _, _. split; [vm_compute; reflexivity|]. split; [reflexivity|].
  exact (request_sizes_bounded Fixture.float_of_str Fixture.extract_html_tags
           Scenario.true_div Scenario.fmul Scenario.fadd Scenario.round_ndigits
           Scenario.format_float Scenario.str_array Scenario.sparse
           (Scenario.engine false 3 None 2 None) (Scenario.task (Some 4)) 5 _ _ _ eq_refl).
Defined.

Lemma call_changes_only_total_cost_witness :
  ∃ self' log out,
    Scenario.run Scenario.late (Scenario.engine true 2 None 2 (Some Scenario.prices))
      (Scenario.task None) 2 = (self', log, out)
    ∧ total_cost self' = 6 # 5
    ∧ self' = set_total_cost (total_cost self') (Scenario.engine true 2 None 2 (Some Scenario.prices))
    ∧ (token_cost (Scenario.engine true 2 None 2 (Some Scenario.prices)) = None
       → self' = Scenario.engine true 2 None 2 (Some Scenario.prices))
    ∧ ((∀ result, out ≠ Returned result) → out ≠ Raised IndexError
       → self' = Scenario.engine true 2 None 2 (Some Scenario.prices)).
Proof.
  eexists _, _, _. split; [vm_compute; reflexivity|]. split; [reflexivity|].
  exact (call_changes_only_total_cost Fixture.float_of_str Fixture.extract_html_tags
           Scenario.true_div Scenario.fmul Scenario.fadd Scenario.round_ndigits
           Scenario.format_float Scenario.str_array Scenario.late
           (Scenario.engine true 2 None 2 (Some Scenario.prices)) (Scenario.task None) 2
           _ _ _ eq_refl).
Defined.

Lemma llm_outputs_complete_witness :
  ∃ self' log samples info,
    Scenario.run Scenario.late (Scenario.engine true 2 None 2 None) (Scenario.task None) 2
    = (self', log, Returned (samples, info))
    ∧ length (llm_outputs info) = 4%nat
    ∧ ∃ completions,
        reply <$> log = inr <$> completions
        ∧ llm_outputs info = completions ≫= choices
        ∧ (length samples ≤ length (llm_outputs info))%nat.
Proof.
  eexists _, _, _, _. split; [vm_compute; reflexivity|]. split; [reflexivity|].
  exact (llm_outputs_complete Fixture.float_of_str Fixture.extract_html_tags
           Scenario.true_div Scenario.fmul Scenario.fadd Scenario.round_ndigits
           Scenario.format_float Scenario.str_array Scenario.late
           (Scenario.engine true 2 None 2 None) (Scenario.task None) 2 _ _ _ _ eq_refl).
Defined.

Lemma call_returns_iff_witness :
  ∃ self' log out,
    Scenario.run Scenario.late (Scenario.engine true 2 None 2 None) (Scenario.task None) 2
    = (self', log, out)
    ∧ ((∃ samples info, out = Returned (samples, info))
       ↔ configuration_ok (Scenario.engine true 2 None 2 None) 2 = true
         ∧ zero_batch (Scenario.engine true 2 None 2 None) (Scenario.task None) 2 = false
         ∧ Forall (λ r, is_Some (completion_of r)) log
         ∧ 0 < 2
         ∧ accepted Fixture.float_of_str Fixture.extract_html_tags
             (future_time (Scenario.task None)) log ≠ []
         ∧ (fail_on_invalid (Scenario.engine true 2 None 2 None) = true →
            2 ≤ Z.of_nat (length (accepted Fixture.float_of_str Fixture.extract_html_tags
                                    (future_time (Scenario.task None)) log)))).
Proof.
  eexists _, _, _. split; [vm_compute; reflexivity|].
  exact (call_returns_iff Fixture.float_of_str Fixture.extract_html_tags
           Scenario.true_div Scenario.fmul Scenario.fadd Scenario.round_ndigits
           Scenario.format_float Scenario.str_array Scenario.late
           (Scenario.engine true 2 None 2 None) (Scenario.task None) 2 _ _ _ eq_refl).
Defined.

Lemma empty_result_is_charged_witness :
  ∃ self' log,
    Scenario.run Scenario.stubborn (Scenario.engine false 2 None 2 (Some Scenario.prices))
      (Scenario.task None) 2 = (self', log, Raised IndexError)
    ∧ Forall (λ r, is_Some (completion_of r)) log
    ∧ total_cost self' = 4 # 5
    ∧ (fail_on_invalid (Scenario.engine false 2 None 2 (Some Scenario.prices)) = false ∨ 2 ≤ 0)
    ∧ (2 ≤ 0 ∨ accepted Fixture.float_of_str Fixture.extract_html_tags
                 (future_time (Scenario.task None)) log = [])
    ∧ ∀ prices, token_cost (Scenario.engine false 2 None 2 (Some Scenario.prices)) = Some prices →
        total_cost self'
        = Scenario.fadd (total_cost (Scenario.engine false 2 None 2 (Some Scenario.prices)))
            (call_cost Scenario.true_div Scenario.fmul Scenario.fadd Scenario.round_ndigits
               prices (prompt_tokens_of log) (completion_tokens_of log)).
Proof.
  eexists _, _. split; [vm_compute; reflexivity|].
  assert (Forall (λ r, is_Some (completion_of r))
            [ {| requested := 2;
                 reply := inr {| choices := [Scenario.bad_text; Scenario.bad_text];
                                 usage_of := {| prompt_tokens := 100;
                                                completion_tokens := 20 |} |} |};
              {| requested := 2;
                 reply := inr {| choices := [Scenario.bad_text; Scenario.bad_text];
                                 usage_of := {| prompt_tokens := 100;
                                                completion_tokens := 20 |} |} |} ]) as Hall.
  { repeat (constructor; [by eexists|]). constructor. }
  split; [exact Hall|]. split; [reflexivity|].
  exact (empty_result_is_charged Fixture.float_of_str Fixture.extract_html_tags
           Scenario.true_div Scenario.fmul Scenario.fadd Scenario.round_ndigits
           Scenario.format_float Scenario.str_array Scenario.stubborn
           (Scenario.engine false 2 None 2 (Some Scenario.prices)) (Scenario.task None) 2
           _ _ eq_refl Hall).
Defined.

Lemma zero_cap_divides_by_zero_witness :
  configuration_ok (Scenario.engine false 2 None 2 None) 2 = true
  ∧ max_crazycast_batch_size (Scenario.task (Some 0)) = Some 0
  ∧ Scenario.run Scenario.obedient (Scenario.engine false 2 None 2 None) (Scenario.task (Some 0)) 2
    = (Scenario.engine false 2 None 2 None, [], Raised ZeroDivisionError).
Proof.
  split; [reflexivity|]. split; [reflexivity|].
  exact (zero_cap_divides_by_zero Fixture.float_of_str Fixture.extract_html_tags
           Scenario.true_div Scenario.fmul Scenario.fadd Scenario.round_ndigits
           Scenario.format_float Scenario.str_array Scenario.obedient
           (Scenario.engine false 2 None 2 None) (Scenario.task (Some 0)) 2 0
           eq_refl eq_refl eq_refl).
Defined.

Lemma squeeze_returned_samples_witness :
  ∃ self' log samples info,
    Scenario.run Scenario.late (Scenario.engine true 2 None 2 None) (Scenario.task None) 2
    = (self', log, Returned (samples, info))
    ∧ squeeze_last samples = Some [[4%Q; 9 # 2]; [4%Q; 9 # 2]]
    ∧ squeeze_last samples
      = Some (take (Z.to_nat 2)
                (accepted Fixture.float_of_str Fixture.extract_html_tags
                   (future_time (Scenario.task None)) log)).
Proof.
  eexists _, _, _, _. split; [vm_compute; reflexivity|]. split; [reflexivity|].
  exact (squeeze_returned_samples Fixture.float_of_str Fixture.extract_html_tags
           Scenario.true_div Scenario.fmul Scenario.fadd Scenario.round_ndigits
           Scenario.format_float Scenario.str_array Scenario.late
           (Scenario.engine true 2 None 2 None) (Scenario.task None) 2 _ _ _ _ eq_refl).
Defined.

Lemma empty_line_rejects_witness :
  parse_choice Fixture.float_of_str Fixture.extract_html_tags Cases.spaced_text
    ["2024-01-01 02:00:00"; "2024-01-01 03:00:00"]%string = None.
Proof.
  apply (empty_line_rejects Fixture.float_of_str Fixture.extract_html_tags Cases.spaced_text
           ("(2024-01-01 02:00:00, 4)" +:+ String newline (String newline "(2024-01-01 03:00:00, 5)"))
           ("(2024-01-01 02:00:00, 4)" +:+ String newline EmptyString)
           (String newline "(2024-01-01 03:00:00, 5)")).
  - vm_compute. reflexivity.
  - reflexivity.
  - right. exists "(2024-01-01 02:00:00, 4)"%string. reflexivity.
  - right. exists "(2024-01-01 03:00:00, 5)"%string. reflexivity.
Defined.

Lemma repeated_timestamp_last_wins_witness :
  ∃ vals,
    parse_choice Fixture.float_of_str Fixture.extract_html_tags Cases.repeated_text
      ["2024-01-01 02:00:00"%string] = Some vals
    ∧ vals !! 0%nat = Some 5%Q.
Proof.
  eexists. split; [vm_compute; reflexivity|].
  apply (repeated_timestamp_last_wins Fixture.float_of_str Fixture.extract_html_tags
           Cases.repeated_text
           ("(2024-01-01 02:00:00, 4)" +:+ String newline "(2024-01-01 02:00:00, 5)")
           ["2024-01-01 02:00:00, 4"%string] "2024-01-01 02:00:00, 5" []
           "2024-01-01 02:00:00" 5%Q ["2024-01-01 02:00:00"%string]).
  - vm_compute. reflexivity.
  - vm_compute. reflexivity.
  - vm_compute. reflexivity.
  - apply not_elem_of_nil.
  - vm_compute. reflexivity.
  - reflexivity.
Defined.

Lemma history_format_parses_back_witness :
  parse_choice Fixture.float_of_str Fixture.extract_html_tags Cases.echo_text
    ["2024-01-01 00:00:00"; "2024-01-01 01:00:00"]%string = Some [1%Q; 3%Q].
Proof.
  apply (history_format_parses_back Fixture.float_of_str Fixture.extract_html_tags
           Cases.whole_format 6 Cases.whole_task Cases.echo_text (λ y, y)).
  - discriminate.
  - listed.
  - intros t y Hin. simpl in Hin.
    repeat (apply elem_of_cons in Hin as [[= -> ->]|Hin]);
      [..|by apply elem_of_nil in Hin];
      (split; [|split; [|vm_compute; reflexivity]]);
      intros c Hc;
      repeat (apply elem_of_cons in Hc as [->|Hc]; [vm_compute; reflexivity|]);
      by apply elem_of_nil in Hc.
  - vm_compute. reflexivity.
Defined.

Lemma dict_to_obj_attribute_access_witness :
  attribute [Key "choices"; Index 0; Key "message"; Key "content"]%string
    (dict_to_obj Cases.response) = Some (PStr Scenario.good_text).
Proof.
  exact (dict_to_obj_attribute_access
           [Key "choices"; Index 0; Key "message"; Key "content"]%string
           Cases.response (PStr Scenario.good_text) eq_refl).
Defined.

Lemma dict_to_obj_nothing_else_witness :
  ∃ w,
    attribute [Key "usage"]%string (dict_to_obj Cases.response) = Some w
    ∧ (∃ v, subscript [Key "usage"]%string Cases.response = Some v
            ∧ is_json v = true ∧ w = dict_to_obj v)
    ∧ ∀ entries, w ≠ PDict entries.
Proof.
  eexists. split; [vm_compute; reflexivity|].
  exact (dict_to_obj_nothing_else [Key "usage"]%string Cases.response _ eq_refl eq_refl).
Defined.

Lemma converted_response_read_witness :
  read_completion (dict_to_obj Cases.response)
  = Some {| choices := [Scenario.good_text];
            usage_of := {| prompt_tokens := 100; completion_tokens := 30 |} |}.
Proof.
  eapply (converted_response_read Cases.response 100 30 _ [Scenario.good_text]).
  - reflexivity.
  - reflexivity.
  - reflexivity.
  - repeat constructor.
Defined.

Lemma local_model_reports_no_tokens_witness :
  ∃ self' log samples info,
    Scenario.run (huggingface_backend Cases.generate) Cases.local_engine (Scenario.task None) 2
    = (self', log, Returned (samples, info))
    ∧ length (llm_outputs info) = 2%nat
    ∧ (∀ i r, log !! i = Some r →
         ∃ responses,
           Cases.generate i
             ("You are a useful forecasting assistant." +:+ String newline EmptyString
              +:+ make_prompt Scenario.format_float Scenario.str_array
                    (use_context Cases.local_engine) (Scenario.task None) 6
              +:+ String newline EmptyString) (requested r) = inr responses
           ∧ completion_of r = Some {| choices := responses;
                                       usage_of := {| prompt_tokens := 0;
                                                      completion_tokens := 0 |} |})
    ∧ total_input_tokens info = 0
    ∧ total_output_tokens info = 0
    ∧ ∀ prices, token_cost Cases.local_engine = Some prices →
        total_token_cost info
        = Some (call_cost Scenario.true_div Scenario.fmul Scenario.fadd Scenario.round_ndigits
                  prices 0 0)
        ∧ total_cost self'
          = Scenario.fadd (total_cost Cases.local_engine)
              (call_cost Scenario.true_div Scenario.fmul Scenario.fadd Scenario.round_ndigits
                 prices 0 0).
Proof.
  eexists _, _, _, _. split; [vm_compute; reflexivity|]. split; [reflexivity|].
  exact (local_model_reports_no_tokens Fixture.float_of_str Fixture.extract_html_tags
           Scenario.true_div Scenario.fmul Scenario.fadd Scenario.round_ndigits
           Scenario.format_float Scenario.str_array Cases.generate
           Cases.local_engine (Scenario.task None) 2 _ _ _ _ eq_refl).
Defined.

Lemma key_follows_client_temperature_witness :
  get_client ["llama-3-8B-instruct"%string] (model Cases.keyed_engine) = Some HuggingFaceClient
  ∧ (cache_name Py.str_int (with_temperature 2 Cases.keyed_engine)
     = cache_name Py.str_int Cases.keyed_engine
     ↔ client_temperature HuggingFaceClient (with_temperature 2 Cases.keyed_engine)
       = client_temperature HuggingFaceClient Cases.keyed_engine).
Proof.
  split; [vm_compute; reflexivity|].
  apply (key_follows_client_temperature Py.str_int str_int_inj
           ["llama-3-8B-instruct"%string] Cases.keyed_engine HuggingFaceClient 2).
  vm_compute. reflexivity.
Defined.
